(** * Inventory360: a shallow embedding of [app.py]

    The Flask application keeps five SQLite tables (users, inventory,
    purchases, sales, purchase_orders) and exposes one handler per route.
    Each handler is embedded as a function from the database and the
    request to the new database, the flashed messages and the response.
    The handlers that write, and the search, are embedded: register,
    add_inventory, purchase, sell, purchase_orders and search; the pages
    that only list a table are left out.

    Conventions of the embedding:
    - a table is the list of its rows in rowid order, every row carrying
      its [id]; [AUTOINCREMENT] is the [sqlite_sequence] counter;
    - Python floats are an abstract carrier ([PyFloat]) with exactly the
      operations the handlers use; nothing is assumed about them unless a
      theorem lists a law of [FloatLaws];
    - text is a [string] of 8-bit characters;
    - [datetime.now().isoformat()] is the argument [now], indexed by the
      number of earlier calls in the same request;
    - a handler that lets an exception escape answers [ServerError] and
      commits nothing. *)

From Stdlib Require Import Ascii String.
From stdpp Require Import gmap strings list pretty sorting.

Local Open Scope string_scope.
Local Open Scope list_scope.

(** ** Python and SQLite text primitives *)

Module Text.

(** [str.isspace] on the code points below 256. *)
Definition isspace (c : ascii) : bool :=
  let n := nat_of_ascii c in
  ((9 <=? n) && (n <=? 13) || (28 <=? n) && (n <=? 32)
   || (n =? 133) || (n =? 160))%nat.

Fixpoint all_space (s : string) : bool :=
  match s with
  | EmptyString => true
  | String c s' => isspace c && all_space s'
  end.

Fixpoint lstrip (s : string) : string :=
  match s with
  | EmptyString => EmptyString
  | String c s' => if isspace c then lstrip s' else s
  end.

Fixpoint rstrip (s : string) : string :=
  match s with
  | EmptyString => EmptyString
  | String c s' =>
      match rstrip s' with
      | EmptyString => if isspace c then EmptyString else String c EmptyString
      | r => String c r
      end
  end.

(** [s.strip()] *)
Definition strip (s : string) : string := rstrip (lstrip s).

(** [bool(s)] for a string: non-empty. *)
Definition truth (s : string) : bool :=
  match s with EmptyString => false | String _ _ => true end.

(** [s or d] *)
Definition or_else (s d : string) : string := if truth s then s else d.

(** SQLite's [LOWER()], and the case folding of [LIKE]: ASCII only. *)
Definition lower_char (c : ascii) : ascii :=
  let n := nat_of_ascii c in
  if ((65 <=? n) && (n <=? 90))%nat then ascii_of_nat (n + 32) else c.

Fixpoint lower (s : string) : string :=
  match s with
  | EmptyString => EmptyString
  | String c s' => String (lower_char c) (lower s')
  end.

(** [s LIKE p] without an ESCAPE clause: [%] matches any run of
    characters, [_] exactly one, anything else itself up to ASCII case. *)
Fixpoint like (p s : string) : bool :=
  match p with
  | EmptyString => negb (truth s)
  | String c p' =>
      if Ascii.eqb c "%"%char then
        (fix any (t : string) : bool :=
           like p' t
           || match t with
              | EmptyString => false
              | String _ t' => any t'
              end) s
      else
        match s with
        | EmptyString => false
        | String d s' =>
            (Ascii.eqb c "_"%char || Ascii.eqb (lower_char c) (lower_char d))
            && like p' s'
        end
  end.




End Text.

(** ** Python floats *)

(** The carrier of the REAL columns and the operations the handlers apply
    to it. The comparisons are the two the code writes, [x <= y] and
    [x > y], each on its own, so that no theorem silently relies on one
    being the negation of the other. *)
Class PyFloat := {
  num : Type;
  fzero : num;                      (* 0.0 *)
  fadd : num → num → num;           (* x + y *)
  fsub : num → num → num;           (* x - y *)
  fmul : num → num → num;           (* x * y *)
  fle : num → num → bool;           (* x <= y *)
  fgt : num → num → bool;           (* x > y *)
  fbool : num → bool;               (* bool(x) *)
  float : string → option num;      (* float(s); None when it raises *)
  fstr : num → string;              (* str(x), as an f-string prints it *)
}.


(** ** The database and the handlers *)

(** The order of a text column under the BINARY collation. *)
Definition key_le {A} (key : A → string) : relation A :=
  λ a b, String.leb (key a) (key b) = true.

#[global] Instance key_le_dec {A} (key : A → string) (a b : A) :
  Decision (key_le key a b).
Proof. unfold key_le. apply _. Defined.

#[global] Instance flip_key_le_dec {A} (key : A → string) (a b : A) :
  Decision (flip (key_le key) a b).
Proof. unfold flip, key_le. apply _. Defined.

Inductive http_method := GET | POST.

Record request := {
  method : http_method;
  form : gmap string string;        (* request.form *)
  args : gmap string string;        (* request.args *)
  session : option nat;             (* session.get("user_id") *)
}.

Record user := {
  u_id : nat;
  u_username : string;
  u_password_hash : string;
  u_shop_name : string;
}.

Section App.
Context {F : PyFloat}.

Record inv_row := {
  i_id : nat;
  i_shop_name : string;
  i_oil_type : string;
  i_unit : string;
  i_quantity : num;
  i_unit_price : num;
}.

(** A row of [purchases] or of [sales]: the two tables have one schema. *)
Record txn := {
  t_id : nat;
  t_shop_name : string;
  t_oil_type : string;
  t_unit : string;
  t_quantity : num;
  t_price_per_unit : num;
  t_total : num;
  t_date : string;
}.

Record po_row := {
  p_id : nat;
  p_shop_name : string;
  p_oil_type : option string;     (* NULL when the field is absent *)
  p_unit : string;
  p_quantity : num;
  p_status : string;
  p_date : string;
}.

(** [sqlite_sequence]: the largest id each AUTOINCREMENT table has issued. *)
Record sequence := {
  seq_users : nat;
  seq_inventory : nat;
  seq_purchases : nat;
  seq_sales : nat;
  seq_purchase_orders : nat;
}.

Record db := {
  users : list user;
  inventory : list inv_row;
  purchases : list txn;
  sales : list txn;
  purchase_orders : list po_row;
  sqlite_sequence : sequence;
}.

(** The database [init_db] creates. *)
Definition init_db : db :=
  {| users := []; inventory := []; purchases := []; sales := [];
     purchase_orders := []; sqlite_sequence := Build_sequence 0 0 0 0 0 |}.

Inductive response :=
| Redirect (endpoint : string)
| Page (name : string)
| SearchPage (q : string) (inv_rows : list inv_row)
             (sales_rows purchases_rows : list txn)
| ServerError.

Record outcome := {
  out_db : db;
  out_flash : list string;
  out_resp : response;
}.

(** [flash(msg); return redirect(url_for(endpoint))] with nothing written. *)
Definition flash_redirect (d : db) (msg endpoint : string) : outcome :=
  {| out_db := d; out_flash := [msg]; out_resp := Redirect endpoint |}.

(** *** SQL helpers *)

(** The rowid AUTOINCREMENT gives the next row. *)
Definition next_id (seq : nat) (ids : list nat) : nat :=
  S (foldr Nat.max seq ids).

Definition with_inventory (d : db) (inv : list inv_row) : db :=
  {| users := users d; inventory := inv; purchases := purchases d;
     sales := sales d; purchase_orders := purchase_orders d;
     sqlite_sequence := sqlite_sequence d |}.

(** SELECT * FROM users WHERE username = ? *)
Definition select_user (us : list user) (uname : string) : option user :=
  head (filter (λ u, u_username u = uname) us).

(** INSERT INTO users; [None] is the IntegrityError of UNIQUE(username). *)
Definition insert_user (d : db) (uname hash shop : string) : option db :=
  match select_user (users d) uname with
  | Some _ => None
  | None =>
      let id := next_id (seq_users (sqlite_sequence d)) (u_id <$> users d) in
      let sq := sqlite_sequence d in
      Some {| users := users d ++ [Build_user id uname hash shop];
              inventory := inventory d; purchases := purchases d;
              sales := sales d; purchase_orders := purchase_orders d;
              sqlite_sequence :=
                Build_sequence id (seq_inventory sq) (seq_purchases sq)
                               (seq_sales sq) (seq_purchase_orders sq) |}
  end.

(** SELECT * FROM inventory WHERE id = ? *)
Definition select_inventory (inv : list inv_row) (iid : nat) : option inv_row :=
  head (filter (λ r, i_id r = iid) inv).

(** SELECT * FROM inventory WHERE shop_name=? AND oil_type=? AND unit=? *)
Definition select_inventory_key (inv : list inv_row) (shop oil unit : string)
  : option inv_row :=
  head (filter (λ r, i_shop_name r = shop ∧ i_oil_type r = oil ∧ i_unit r = unit) inv).

(** UPDATE inventory SET quantity=?, unit_price=? WHERE id=? *)
Definition update_quantity_price (inv : list inv_row) (iid : nat) (q p : num)
  : list inv_row :=
  (λ r, if decide (i_id r = iid)
        then Build_inv_row (i_id r) (i_shop_name r) (i_oil_type r) (i_unit r) q p
        else r) <$> inv.

(** UPDATE inventory SET quantity=? WHERE id=? *)
Definition update_quantity (inv : list inv_row) (iid : nat) (q : num)
  : list inv_row :=
  (λ r, if decide (i_id r = iid)
        then Build_inv_row (i_id r) (i_shop_name r) (i_oil_type r) (i_unit r)
                           q (i_unit_price r)
        else r) <$> inv.

(** DELETE FROM inventory WHERE id = ? *)
Definition delete_inventory (inv : list inv_row) (iid : nat) : list inv_row :=
  filter (λ r, i_id r ≠ iid) inv.

(** INSERT INTO inventory; [None] is the IntegrityError of
    UNIQUE(shop_name, oil_type, unit). *)
Definition insert_inventory (d : db) (shop oil unit : string) (q p : num)
  : option db :=
  match select_inventory_key (inventory d) shop oil unit with
  | Some _ => None
  | None =>
      let sq := sqlite_sequence d in
      let id := next_id (seq_inventory sq) (i_id <$> inventory d) in
      Some {| users := users d;
              inventory := inventory d ++ [Build_inv_row id shop oil unit q p];
              purchases := purchases d; sales := sales d;
              purchase_orders := purchase_orders d;
              sqlite_sequence :=
                Build_sequence (seq_users sq) id (seq_purchases sq)
                               (seq_sales sq) (seq_purchase_orders sq) |}
  end.

(** INSERT INTO purchases *)
Definition insert_purchase (d : db) (shop oil unit : string) (q p total : num)
    (date : string) : db :=
  let sq := sqlite_sequence d in
  let id := next_id (seq_purchases sq) (t_id <$> purchases d) in
  {| users := users d; inventory := inventory d;
     purchases := purchases d ++ [Build_txn id shop oil unit q p total date];
     sales := sales d; purchase_orders := purchase_orders d;
     sqlite_sequence :=
       Build_sequence (seq_users sq) (seq_inventory sq) id
                      (seq_sales sq) (seq_purchase_orders sq) |}.

(** INSERT INTO sales *)
Definition insert_sale (d : db) (shop oil unit : string) (q p total : num)
    (date : string) : db :=
  let sq := sqlite_sequence d in
  let id := next_id (seq_sales sq) (t_id <$> sales d) in
  {| users := users d; inventory := inventory d; purchases := purchases d;
     sales := sales d ++ [Build_txn id shop oil unit q p total date];
     purchase_orders := purchase_orders d;
     sqlite_sequence :=
       Build_sequence (seq_users sq) (seq_inventory sq) (seq_purchases sq)
                      id (seq_purchase_orders sq) |}.

(** INSERT INTO purchase_orders *)
Definition insert_purchase_order (d : db) (shop : string) (oil : option string)
    (unit : string) (q : num) (status date : string) : db :=
  let sq := sqlite_sequence d in
  let id := next_id (seq_purchase_orders sq) (p_id <$> purchase_orders d) in
  {| users := users d; inventory := inventory d; purchases := purchases d;
     sales := sales d;
     purchase_orders :=
       purchase_orders d ++ [Build_po_row id shop oil unit q status date];
     sqlite_sequence :=
       Build_sequence (seq_users sq) (seq_inventory sq) (seq_purchases sq)
                      (seq_sales sq) id |}.

(** ORDER BY a text column, ascending and descending. *)
Definition order_by {A} (key : A → string) : list A → list A :=
  merge_sort (key_le key).

Definition order_by_desc {A} (key : A → string) : list A → list A :=
  merge_sort (flip (key_le key)).

(** *** Auth *)

Definition current_user (d : db) (sess : option nat) : option user :=
  match sess with
  | None => None
  | Some uid =>
      if decide (uid = 0) then None
      else head (filter (λ u, u_id u = uid) (users d))
  end.

(** *** Numeric form fields *)

(** [try: x = float(s)] with [except: x = 0.0] *)
Definition try_float (s : string) : num := default fzero (float s).

(** [float(s or 0)] inside that [try]; [float(0)] is [0.0]. *)
Definition float_or_0 (s : string) : num :=
  if Text.truth s then try_float s else fzero.

(** *** /register *)

Variable generate_password_hash : string → string.

Definition register (d : db) (rq : request) : outcome :=
  match method rq with
  | POST =>
      let uname := Text.strip (default "" (form rq !! "username")) in
      let pwd := default "" (form rq !! "password") in
      let shop :=
        Text.or_else (Text.strip (default "" (form rq !! "shop_name")))
                     "DefaultShop" in
      if negb (Text.truth uname) || negb (Text.truth pwd)
      then flash_redirect d "Fill all fields" "register"
      else
        match insert_user d uname (generate_password_hash pwd) shop with
        | None => flash_redirect d "Username already exists" "register"
        | Some d' =>
            {| out_db := d'; out_flash := ["Registered. Please login."];
               out_resp := Redirect "login" |}
        end
  | GET => {| out_db := d; out_flash := []; out_resp := Page "register" |}
  end.

(** *** /inventory/add and /purchase *)

(** The upsert both handlers carry inline (add_inventory, purchase). *)
Definition upsert_inventory (d : db) (shop oil unit : string) (qty price : num)
  : option db :=
  match select_inventory_key (inventory d) shop oil unit with
  | Some existing =>
      let new_qty := fadd (i_quantity existing) qty in
      Some (with_inventory d
              (update_quantity_price (inventory d) (i_id existing) new_qty price))
  | None => insert_inventory d shop oil unit qty price
  end.

Definition add_inventory (d : db) (rq : request) : outcome :=
  match current_user d (session rq) with
  | None => {| out_db := d; out_flash := []; out_resp := Redirect "login" |}
  | Some user =>
      match method rq with
      | POST =>
          let oil := Text.strip (default "" (form rq !! "oil_type")) in
          let unit := default "Liters" (form rq !! "unit") in
          let qty := float_or_0 (default "0" (form rq !! "quantity")) in
          let price := float_or_0 (default "0" (form rq !! "price")) in
          let shop := u_shop_name user in
          match upsert_inventory d shop oil unit qty price with
          | Some d' =>
              {| out_db := d'; out_flash := ["Stock updated"];
                 out_resp := Redirect "inventory" |}
          | None => {| out_db := d; out_flash := []; out_resp := ServerError |}
          end
      | GET => {| out_db := d; out_flash := []; out_resp := Page "add_inventory" |}
      end
  end.

Definition purchase (d : db) (rq : request) (now : nat → string) : outcome :=
  match current_user d (session rq) with
  | None => {| out_db := d; out_flash := []; out_resp := Redirect "login" |}
  | Some user =>
      let shop := u_shop_name user in
      match method rq with
      | POST =>
          let oil := Text.strip (default "" (form rq !! "oil_type")) in
          let unit := default "Liters" (form rq !! "unit") in
          let qty := float_or_0 (default "0" (form rq !! "quantity")) in
          let price := float_or_0 (default "0" (form rq !! "price")) in
          let total := fmul qty price in
          let d1 := insert_purchase d shop oil unit qty price total (now 0) in
          match upsert_inventory d1 shop oil unit qty price with
          | Some d' =>
              {| out_db := d';
                 out_flash := ["Purchase recorded and inventory updated"];
                 out_resp := Redirect "dashboard" |}
          | None => {| out_db := d; out_flash := []; out_resp := ServerError |}
          end
      | GET => {| out_db := d; out_flash := []; out_resp := Page "purchase" |}
      end
  end.

(** *** /sell *)

Record sell_line := {
  s_inventory_id : nat;
  s_oil_type : string;
  s_unit : string;
  s_qty : num;
  s_price_per_unit : num;
  s_total : num;
}.

(** The name of the form field of an inventory row: [f"qty_{iid}"]. *)
Definition qty_field (iid : nat) : string := "qty_" +:+ pretty iid.

(** The first loop of [sell]: [inl msg] is the flashed message of the
    line that stopped the request, [inr sells] the lines collected. *)
Fixpoint collect_sells (inv : list inv_row) (fm : gmap string string)
    (items : list inv_row) : string + list sell_line :=
  match items with
  | [] => inr []
  | it :: rest =>
      let iid := i_id it in
      let raw_qty := Text.strip (default "" (fm !! qty_field iid)) in
      if negb (Text.truth raw_qty) then collect_sells inv fm rest
      else
        let qty := try_float raw_qty in
        if fle qty fzero then collect_sells inv fm rest
        else
          match select_inventory inv iid with
          | None => inl ("Item not found: " +:+ i_oil_type it)
          | Some row =>
              if fgt qty (i_quantity row)
              then inl ("Not enough stock for " +:+ i_oil_type row +:+ " ("
                        +:+ i_unit row +:+ "). Available: "
                        +:+ fstr (i_quantity row))
              else
                let price_per_unit :=
                  if fbool (i_unit_price row) then i_unit_price row else fzero in
                let total := fmul qty price_per_unit in
                match collect_sells inv fm rest with
                | inl msg => inl msg
                | inr sells =>
                    inr (Build_sell_line (i_id row) (i_oil_type row) (i_unit row)
                                         qty price_per_unit total :: sells)
                end
          end
  end.

(** The second loop of [sell], inside [try]: [None] is the exception
    raised by [ex["quantity"]] when the row is gone. *)
Fixpoint record_sells (shop : string) (now : nat → string) (k : nat)
    (sells : list sell_line) (d : db) : option db :=
  match sells with
  | [] => Some d
  | s :: rest =>
      match select_inventory (inventory d) (s_inventory_id s) with
      | None => None
      | Some ex =>
          let new_qty := fsub (i_quantity ex) (s_qty s) in
          let inv' :=
            if fle new_qty fzero
            then delete_inventory (inventory d) (s_inventory_id s)
            else update_quantity (inventory d) (s_inventory_id s) new_qty in
          let d' :=
            insert_sale (with_inventory d inv') shop (s_oil_type s) (s_unit s)
                        (s_qty s) (s_price_per_unit s) (s_total s) (now k) in
          record_sells shop now (S k) rest d'
      end
  end.

(** SELECT * FROM inventory WHERE shop_name = ? ORDER BY oil_type *)
Definition shop_items (d : db) (shop : string) : list inv_row :=
  order_by i_oil_type (filter (λ r, i_shop_name r = shop) (inventory d)).

Definition sell (d : db) (rq : request) (now : nat → string) : outcome :=
  match current_user d (session rq) with
  | None => {| out_db := d; out_flash := []; out_resp := Redirect "login" |}
  | Some user =>
      let shop := u_shop_name user in
      let items := shop_items d shop in
      match method rq with
      | POST =>
          match collect_sells (inventory d) (form rq) items with
          | inl msg => flash_redirect d msg "sell"
          | inr [] => flash_redirect d "No items selected for sale" "sell"
          | inr sells =>
              match record_sells shop now 0 sells d with
              | None =>
                  flash_redirect d
                    "Error recording sale: 'NoneType' object is not subscriptable"
                    "sell"
              | Some d' =>
                  {| out_db := d'; out_flash := ["Sale recorded"];
                     out_resp := Redirect "dashboard" |}
              end
          end
      | GET => {| out_db := d; out_flash := []; out_resp := Page "sell" |}
      end
  end.

(** *** /po

    The handler [purchase_orders]; the table has taken that name. *)

Definition purchase_orders_view (d : db) (rq : request) (now : nat → string)
  : outcome :=
  match current_user d (session rq) with
  | None => {| out_db := d; out_flash := []; out_resp := Redirect "login" |}
  | Some user =>
      let shop := u_shop_name user in
      match method rq with
      | POST =>
          let oil := form rq !! "oil_type" in
          let unit := Text.or_else (default "" (form rq !! "unit")) "Liters" in
          let qty := float_or_0 (default "" (form rq !! "quantity")) in
          {| out_db := insert_purchase_order d shop oil unit qty "Pending" (now 0);
             out_flash := ["Purchase order created"];
             out_resp := Redirect "purchase_orders" |}
      | GET => {| out_db := d; out_flash := []; out_resp := Page "po" |}
      end
  end.

(** *** /search *)

(** LOWER(col) LIKE LOWER(?) *)
Definition lower_like (pat col : string) : bool :=
  Text.like (Text.lower pat) (Text.lower col).

Definition search_inventory (d : db) (shop pat : string) : list inv_row :=
  order_by i_oil_type
    (filter (λ r, i_shop_name r = shop
                  ∧ (lower_like pat (i_oil_type r) ∨ lower_like pat (i_unit r)))
            (inventory d)).

Definition search_txn (rows : list txn) (shop pat : string) : list txn :=
  take 500
    (order_by_desc t_date
       (filter (λ r, t_shop_name r = shop ∧ lower_like pat (t_oil_type r)) rows)).

Definition search (d : db) (rq : request) : outcome :=
  match current_user d (session rq) with
  | None => {| out_db := d; out_flash := []; out_resp := Redirect "login" |}
  | Some user =>
      let q := Text.strip (default "" (args rq !! "q")) in
      let shop := u_shop_name user in
      if Text.truth q then
        let pat := "%" +:+ q +:+ "%" in
        let inv_rows := search_inventory d shop pat in
        let sales_rows := search_txn (sales d) shop pat in
        let purchases_rows := search_txn (purchases d) shop pat in
        {| out_db := d;
           out_flash :=
             match inv_rows, sales_rows, purchases_rows with
             | [], [], [] => ["No record found for: " +:+ q]
             | _, _, _ => []
             end;
           out_resp := SearchPage q inv_rows sales_rows purchases_rows |}
      else flash_redirect d "Please enter a search keyword" "dashboard"
  end.

End App.

(** ** Vocabulary of the statements *)

Section Vocabulary.
Context {F : PyFloat}.


Definition raw_qty (fm : gmap string string) (iid : nat) : string :=
  Text.strip (default "" (fm !! qty_field iid)).

Definition requested (fm : gmap string string) (iid : nat) : option num :=
  if Text.truth (raw_qty fm iid) then Some (try_float (raw_qty fm iid)) else None.


Definition decrease (r : inv_row) (q : num) : option inv_row :=
  let left := fsub (i_quantity r) q in
  if fle left fzero then None
  else Some (Build_inv_row (i_id r) (i_shop_name r) (i_oil_type r) (i_unit r)
                           left (i_unit_price r)).




Definition line_of (fm : gmap string string) (it : inv_row) : sell_line :=
  let qty := try_float (raw_qty fm (i_id it)) in
  let price_per_unit :=
    if fbool (i_unit_price it) then i_unit_price it else fzero in
  Build_sell_line (i_id it) (i_oil_type it) (i_unit it) qty price_per_unit
                  (fmul qty price_per_unit).

Definition sold (sells : list sell_line) (r : inv_row) : option inv_row :=
  match head (filter (λ s, s_inventory_id s = i_id r) sells) with
  | Some s => decrease r (s_qty s)
  | None => Some r
  end.
Definition recorded (shop : string) (s : sell_line) (t : txn) : Prop :=
  t_shop_name t = shop ∧ t_oil_type t = s_oil_type s ∧ t_unit t = s_unit s
  ∧ t_quantity t = s_qty s ∧ t_price_per_unit t = s_price_per_unit s
  ∧ t_total t = s_total s.


End Vocabulary.

(** ** Sessions and the listing pages *)

Section Pages.
Context {F : PyFloat}.

(** werkzeug's [check_password_hash(stored_hash, password)]. *)
Variable check_password_hash : string → string → bool.

(** What a handler of the session leaves: the user id the session holds,
    the flashed messages and the response. *)
Record auth_outcome := {
  auth_session : option nat;
  auth_flash : list string;
  auth_resp : response;
}.

(** *** /login, /logout and / *)

Definition login (d : db) (rq : request) : auth_outcome :=
  match method rq with
  | POST =>
      let uname := Text.strip (default "" (form rq !! "username")) in
      let pwd := default "" (form rq !! "password") in
      match select_user (users d) uname with
      | Some user =>
          if check_password_hash (u_password_hash user) pwd
          then {| auth_session := Some (u_id user); auth_flash := [];
                  auth_resp := Redirect "dashboard" |}
          else {| auth_session := session rq;
                  auth_flash := ["Invalid credentials"];
                  auth_resp := Redirect "login" |}
      | None =>
          {| auth_session := session rq; auth_flash := ["Invalid credentials"];
             auth_resp := Redirect "login" |}
      end
  | GET =>
      {| auth_session := session rq; auth_flash := []; auth_resp := Page "login" |}
  end.

(** [session.clear()] *)
Definition logout (rq : request) : auth_outcome :=
  {| auth_session := None; auth_flash := []; auth_resp := Redirect "login" |}.

Definition index (d : db) (rq : request) : response :=
  match current_user d (session rq) with
  | None => Redirect "login"
  | Some _ => Redirect "dashboard"
  end.

(** *** /inventory, /sales, /purchases and the list of /po

    A page that lists rows. Where the query has no ORDER BY, SQL leaves
    the order open; the rows are taken in table order and the statements
    about them hold up to order. *)

Inductive listing :=
| ListRedirect (endpoint : string)
| InventoryList (shop : string) (rows : list inv_row)
| TxnList (rows : list txn)
| OrderList (rows : list po_row).

(** SELECT * FROM inventory WHERE shop_name = ? *)
Definition inventory_page (d : db) (rq : request) : listing :=
  match current_user d (session rq) with
  | None => ListRedirect "login"
  | Some user =>
      let shop := u_shop_name user in
      InventoryList shop (filter (λ r, i_shop_name r = shop) (inventory d))
  end.

(** SELECT * FROM <table> WHERE shop_name = ? ORDER BY date DESC LIMIT 200 *)
Definition history (rows : list txn) (shop : string) : list txn :=
  take 200 (order_by_desc t_date (filter (λ t, t_shop_name t = shop) rows)).

Definition sales_history (d : db) (rq : request) : listing :=
  match current_user d (session rq) with
  | None => ListRedirect "login"
  | Some user => TxnList (history (sales d) (u_shop_name user))
  end.

Definition purchase_history (d : db) (rq : request) : listing :=
  match current_user d (session rq) with
  | None => ListRedirect "login"
  | Some user => TxnList (history (purchases d) (u_shop_name user))
  end.

(** The rows a GET of /po lists:
    SELECT * FROM purchase_orders WHERE shop_name = ? ORDER BY date DESC *)
Definition purchase_orders_list (d : db) (rq : request) : listing :=
  match current_user d (session rq) with
  | None => ListRedirect "login"
  | Some user =>
      OrderList (order_by_desc p_date
                   (filter (λ r, p_shop_name r = u_shop_name user)
                           (purchase_orders d)))
  end.

(** *** Vocabulary of the statements about these and about whole sales *)

(** The quantity of a line the first loop of [sell] lets through. *)
Definition accepted (fm : gmap string string) (iid : nat) : option num :=
  match requested fm iid with
  | Some q => if fle q fzero then None else Some q
  | None => None
  end.

(** What a recorded sale leaves of an inventory row. *)
Definition settle (shop : string) (fm : gmap string string) (r : inv_row)
  : option inv_row :=
  if decide (i_shop_name r = shop) then
    match accepted fm (i_id r) with
    | Some q => decrease r q
    | None => Some r
    end
  else Some r.

(** The items of the shop with an accepted line, in the order of the form. *)
Definition accepted_lines (d : db) (shop : string) (fm : gmap string string)
  : list inv_row :=
  filter (λ it, is_Some (accepted fm (i_id it))) (shop_items d shop).

(** The sale record of an accepted line. *)
Definition sold_as (shop : string) (fm : gmap string string) (it : inv_row)
    (t : txn) : Prop :=
  t_shop_name t = shop ∧ t_oil_type t = i_oil_type it ∧ t_unit t = i_unit it
  ∧ accepted fm (i_id it) = Some (t_quantity t)
  ∧ t_price_per_unit t
    = (if fbool (i_unit_price it) then i_unit_price it else fzero)
  ∧ t_total t = fmul (t_quantity t) (t_price_per_unit t).

(** The message of a line that asks more than the stock of [row]. *)
Definition not_enough (row : inv_row) : string :=
  "Not enough stock for " +:+ i_oil_type row +:+ " (" +:+ i_unit row
  +:+ "). Available: " +:+ fstr (i_quantity row).

(** The natural key of an inventory row: UNIQUE(shop_name, oil_type, unit). *)
Definition inv_key (r : inv_row) : string * string * string :=
  (i_shop_name r, i_oil_type r, i_unit r).

(** The rows of the other shops, table by table. *)
Definition other_shops_same (shop : string) (d d' : db) : Prop :=
  filter (λ r, i_shop_name r ≠ shop) (inventory d')
  = filter (λ r, i_shop_name r ≠ shop) (inventory d)
  ∧ filter (λ t, t_shop_name t ≠ shop) (sales d')
    = filter (λ t, t_shop_name t ≠ shop) (sales d)
  ∧ filter (λ t, t_shop_name t ≠ shop) (purchases d')
    = filter (λ t, t_shop_name t ≠ shop) (purchases d)
  ∧ filter (λ r, p_shop_name r ≠ shop) (purchase_orders d')
    = filter (λ r, p_shop_name r ≠ shop) (purchase_orders d)
  ∧ users d' = users d.

(** Every table of [d'] starts with the rows of [d], unchanged; the
    inventory is the one table that is rewritten. *)
Definition grown (d d' : db) : Prop :=
  users d `prefix_of` users d'
  ∧ purchases d `prefix_of` purchases d'
  ∧ sales d `prefix_of` sales d'
  ∧ purchase_orders d `prefix_of` purchase_orders d'.

(** The users table as [register] keeps it. *)
Definition users_ok (us : list user) : Prop :=
  NoDup (u_username <$> us)
  ∧ NoDup (u_id <$> us)
  ∧ Forall (λ u, u_id u ≠ 0
                 ∧ u_username u ≠ ""
                 ∧ Text.strip (u_username u) = u_username u
                 ∧ u_shop_name u ≠ "") us.

End Pages.

(** ** The states the application reaches *)

Section Reach.
Context {F : PyFloat}.
Variable generate_password_hash : string → string.

(** What the application relies on without checking it: the two keys of
    the inventory and the shape of the users table. *)
Definition good (d : db) : Prop :=
  NoDup (i_id <$> inventory d)
  ∧ NoDup (inv_key <$> inventory d)
  ∧ users_ok (users d).

(** One request to a handler that writes. *)
Inductive step (d : db) : db → Prop :=
| step_register rq : step d (out_db (register generate_password_hash d rq))
| step_add_inventory rq : step d (out_db (add_inventory d rq))
| step_purchase rq now : step d (out_db (purchase d rq now))
| step_sell rq now : step d (out_db (sell d rq now))
| step_purchase_orders rq now : step d (out_db (purchase_orders_view d rq now)).

(** The databases the handlers produce from the one [init_db] creates. *)
Inductive reachable : db → Prop :=
| reach_init : reachable init_db
| reach_step d d' : reachable d → step d d' → reachable d'.

End Reach.

(** ** An instance of the floats: the integers

    Integers with exact arithmetic, and [float] reading plain integer
    literals (optional sign, decimal digits, surrounding white space), on
    which it agrees with Python. The instance serves the closed examples;
    every general theorem is stated for an arbitrary [PyFloat]. *)

Module ZFloat.

Definition digit (c : ascii) : option Z :=
  let n := nat_of_ascii c in
  if ((48 <=? n) && (n <=? 57))%nat then Some (Z.of_nat (n - 48)) else None.

Fixpoint digits (acc : Z) (s : string) : option Z :=
  match s with
  | EmptyString => Some acc
  | String c s' =>
      match digit c with
      | Some v => digits (10 * acc + v)%Z s'
      | None => None
      end
  end.

Definition unsigned (s : string) : option Z :=
  if Text.truth s then digits 0%Z s else None.

Definition parse (s : string) : option Z :=
  match Text.strip s with
  | EmptyString => None
  | String c t =>
      if Ascii.eqb c "-"%char then Z.opp <$> unsigned t
      else if Ascii.eqb c "+"%char then unsigned t
      else unsigned (String c t)
  end.

Definition inst : PyFloat :=
  {| num := Z; fzero := 0%Z;
     fadd := Z.add; fsub := Z.sub; fmul := Z.mul;
     fle := Z.leb; fgt := Z.gtb;
     fbool := λ x, negb (Z.eqb x 0);
     float := parse;
     fstr := λ x, pretty x +:+ ".0" |}.

End ZFloat.

(** ** Closed scenarios, built by running the handlers from [init_db] *)

Module Scenario.

Definition hash (pwd : string) : string := "pbkdf2$" +:+ pwd.
Definition clock (k : nat) : string := "2024-01-01T10:00:0" +:+ pretty k.

Definition post (fields : list (string * string)) (uid : option nat) : request :=
  {| method := POST; form := list_to_map fields; args := ∅; session := uid |}.

Definition get (params : list (string * string)) (uid : option nat) : request :=
  {| method := GET; form := ∅; args := list_to_map params; session := uid |}.

Abbreviation zdb := (@db ZFloat.inst).

Definition db0 : zdb := init_db.

(** One registered user, "alice" of shop "Mill", with id 1. *)
Definition db1 : zdb :=
  out_db (register hash db0
            (post [("username", "alice"); ("password", "pw"); ("shop_name", " Mill ")]
                  None)).

(** ... who buys 10 litres of olive oil at 5. *)
Definition db2 : zdb :=
  out_db (purchase db1
            (post [("oil_type", "Olive"); ("unit", "Liters");
                   ("quantity", "10"); ("price", "5")] (Some 1))
            clock).

(** ... then 5 more at 6: the stock is 15 at 6. *)
Definition db15 : zdb :=
  out_db (purchase db2
            (post [("oil_type", "Olive"); ("unit", "Liters");
                   ("quantity", "5"); ("price", "6")] (Some 1))
            clock).

(** After [db2], a stock correction of -5 for a new item "Castor". *)
Definition db3 : zdb :=
  out_db (add_inventory db2
            (post [("oil_type", "Castor"); ("unit", "Liters");
                   ("quantity", "-5"); ("price", "2")] (Some 1))).

Definition zrow := @Build_inv_row ZFloat.inst.
Definition ztxn := @Build_txn ZFloat.inst.

Definition alice : user := Build_user 1 "alice" "pbkdf2$pw" "Mill".
Definition olive := zrow 1 "Mill" "Olive" "Liters" 10%Z 5%Z.
Definition castor := zrow 2 "Mill" "Castor" "Liters" (-5)%Z 2%Z.
Definition olive15 := zrow 1 "Mill" "Olive" "Liters" 15%Z 6%Z.

(** A shop whose inventory holds [n] rows of olive oil, one per unit. *)
Definition many_rows (n : nat) : list (@inv_row ZFloat.inst) :=
  (λ i, zrow (S i) "Mill" "Olive" (pretty i) 0%Z 0%Z) <$> seq 0 n.

Definition crowded (n : nat) : zdb :=
  with_inventory db1 (many_rows n).

End Scenario.

(** ** Two shops *)

Module Shops.
Import Scenario.

(** A [check_password_hash] that goes with [hash]. *)
Definition check (stored pwd : string) : bool := String.eqb stored (hash pwd).

Definition bob : user := Build_user 2 "bob" "pbkdf2$pw2" "Press".

Definition press_olive := zrow 3 "Press" "Olive" "Liters" 8%Z 4%Z.

(** The request of "bob" registering the shop "Press", and the one of his
    buying 8 litres of olive oil at 4. *)
Definition bob_registers : request :=
  post [("username", "bob"); ("password", "pw2"); ("shop_name", "Press")] None.

Definition bob_buys : request :=
  post [("oil_type", "Olive"); ("unit", "Liters"); ("quantity", "8");
        ("price", "4")] (Some 2).

(** The database [db3] after the first request, written out ... *)
Definition db4 : zdb :=
  {| users := [alice; bob];
     inventory := [olive; castor];
     purchases := [ztxn 1 "Mill" "Olive" "Liters" 10%Z 5%Z 50%Z (clock 0)];
     sales := [];
     purchase_orders := [];
     sqlite_sequence := Build_sequence 2 2 1 0 0 |}.

(** ... and after the second. *)
Definition db5 : zdb :=
  {| users := [alice; bob];
     inventory := [olive; castor; press_olive];
     purchases := [ztxn 1 "Mill" "Olive" "Liters" 10%Z 5%Z 50%Z (clock 0);
                   ztxn 2 "Press" "Olive" "Liters" 8%Z 4%Z 32%Z (clock 0)];
     sales := [];
     purchase_orders := [];
     sqlite_sequence := Build_sequence 2 3 2 0 0 |}.

End Shops.

(** * Facts *)

(** ** Text *)

Module TextFacts.
Import Text.

Lemma truth_false s : truth s = false ↔ s = "".
Proof. destruct s; simpl; split; congruence. Qed.

Lemma truth_true s : truth s = true ↔ s ≠ "".
Proof. destruct s; simpl; split; congruence. Qed.

Lemma rstrip_empty s : rstrip s = "" ↔ all_space s = true.
Proof.
  induction s as [|c s IH]; simpl; [done|].
  destruct (rstrip s) eqn:E.
  - destruct (isspace c); simpl.
    + tauto.
    + split; discriminate.
  - split; [discriminate|].
    intros [_ H]%andb_true_iff. apply IH in H. discriminate.
Qed.

Lemma all_space_lstrip s : all_space (lstrip s) = all_space s.
Proof.
  induction s as [|c s IH]; simpl; [done|].
  destruct (isspace c) eqn:E; simpl; [done|]. by rewrite E.
Qed.

Lemma strip_empty s : strip s = "" ↔ all_space s = true.
Proof. unfold strip. by rewrite rstrip_empty, all_space_lstrip. Qed.

Lemma or_else_strip s d :
  or_else (strip s) d = if all_space s then d else strip s.
Proof.
  unfold or_else. destruct (all_space s) eqn:E.
  - apply strip_empty in E. by rewrite E.
  - destruct (truth (strip s)) eqn:T; [done|].
    apply truth_false, strip_empty in T. congruence.
Qed.
End TextFacts.

Module LikeFacts.
Import Text.











End LikeFacts.

Import TextFacts LikeFacts.

(** ** Registration *)

Section RegisterFacts.
Context {F : PyFloat}.
Variable hash : string → string.

Lemma select_user_Some us uname :
  uname ∈ u_username <$> us → is_Some (select_user us uname).
Proof.
  intros (u & -> & Hu)%list_elem_of_fmap.
  unfold select_user.
  destruct (filter (λ u0, u_username u0 = u_username u) us) as [|x l] eqn:E.
  - assert (u ∈ filter (λ u0, u_username u0 = u_username u) us) as H
      by (apply list_elem_of_filter; done).
    rewrite E in H. by apply not_elem_of_nil in H.
  - by eexists.
Qed.

Lemma select_user_None us uname :
  select_user us uname = None → uname ∉ u_username <$> us.
Proof.
  intros H Hin. apply select_user_Some in Hin as [u Hu]. congruence.
Qed.

(** C8: a registration attempt (a POST to /register) whose username,
    once stripped, is already in the users table fails with one flashed
    message and a redirect back to the registration page, and changes
    nothing: the database returned is the database received, so the
    existing user's record is untouched and no user row is created. The
    message is "Username already exists", or "Fill all fields" when the
    username or the password is empty. *)
Theorem register_duplicate_username (d : db) (rq : request) :
  method rq = POST →
  Text.strip (default "" (form rq !! "username")) ∈ u_username <$> users d →
  register hash d rq
  = flash_redirect d
      (if Text.truth (Text.strip (default "" (form rq !! "username")))
          && Text.truth (default "" (form rq !! "password"))
       then "Username already exists" else "Fill all fields")
      "register".
Proof.
  intros Hm Hin. unfold register. rewrite Hm.
  destruct (Text.truth (Text.strip _)), (Text.truth (default "" (form rq !! "password")));
    simpl; try done.
  unfold insert_user. by apply select_user_Some in Hin as [u ->].
Qed.

(** C10: in every successful registration (the one answered by the
    redirect to the login page) exactly one user row is appended, and its
    shop_name is the literal "DefaultShop" when the shop-name field is
    absent, empty or made of white space only, and the submitted shop name
    with the surrounding white space stripped otherwise. *)
Theorem register_shop_name (d : db) (rq : request) :
  out_resp (register hash d rq) = Redirect "login" →
  let field := default "" (form rq !! "shop_name") in
  ∃ u, users (out_db (register hash d rq)) = users d ++ [u]
       ∧ u_username u = Text.strip (default "" (form rq !! "username"))
       ∧ u_shop_name u =
           if Text.all_space field then "DefaultShop" else Text.strip field.
Proof.
  unfold register. destruct (method rq); [discriminate|].
  destruct (negb _ || negb _); [discriminate|].
  unfold insert_user. destruct (select_user _ _); [discriminate|].
  simpl. intros _. eexists. split; [reflexivity|]. simpl.
  split; [done|]. apply or_else_strip.
Qed.
End RegisterFacts.

(** ** Stock entry and purchases *)

Section UpsertFacts.
Context {F : PyFloat}.

Lemma next_id_fresh seq ids : next_id seq ids ∉ ids.
Proof.
  assert (∀ x, x ∈ ids → x < next_id seq ids) as H.
  { unfold next_id. induction ids as [|y ids IH]; intros x Hx.
    - by apply not_elem_of_nil in Hx.
    - apply elem_of_cons in Hx as [->|Hx]; simpl; [lia|].
      specialize (IH x Hx). lia. }
  intros Hin. apply H in Hin. lia.
Qed.







End UpsertFacts.

(** ** Sales *)

Section SellFacts.
Context {F : PyFloat}.


Lemma select_inventory_elem inv it :
  NoDup (i_id <$> inv) → it ∈ inv → select_inventory inv (i_id it) = Some it.
Proof.
  unfold select_inventory. induction inv as [|r inv IH]; simpl.
  - intros _ H. by apply not_elem_of_nil in H.
  - intros [Hr Hnd]%NoDup_cons Hin. rewrite filter_cons.
    apply elem_of_cons in Hin as [->|Hin].
    + by rewrite decide_True.
    + rewrite decide_False; [by apply IH|].
      intros E. apply Hr. rewrite E. apply list_elem_of_fmap. eauto.
Qed.

(** The first loop stops at an unsatisfiable line. *)
Lemma collect_sells_abort inv fm items it q row :
  it ∈ items →
  requested fm (i_id it) = Some q →
  fle q fzero = false →
  select_inventory inv (i_id it) = Some row →
  fgt q (i_quantity row) = true →
  ∃ msg, collect_sells inv fm items = inl msg.
Proof.
  unfold requested, raw_qty. intros Hin Hq Hpos Hrow Hgt.
  induction items as [|x items IH]; [by apply not_elem_of_nil in Hin|].
  apply elem_of_cons in Hin as [<-|Hin].
  - simpl. destruct (Text.truth _); [|done]. injection Hq as ->.
    rewrite Hpos, Hrow, Hgt. eauto.
  - destruct (IH Hin) as [msg Hmsg]. simpl. rewrite Hmsg.
    repeat (case_match; eauto).
Qed.

(** C1 (as amended): when some line of a sale that is not skipped (its
    field is not blank and reads as a quantity [q] for which [q <= 0] is
    false) asks for more than the quantity of its inventory row, as the
    handler re-reads it by id, [sell] aborts the whole sale: it flashes one
    message and redirects to the sell page, and the database it returns is
    the one it received, so no inventory row is modified or deleted and no
    sale record is appended. *)
Theorem sell_insufficient_stock (d : db) (rq : request) (now : nat → string)
    (u : user) (it row : inv_row) (q : num) :
  current_user d (session rq) = Some u →
  method rq = POST →
  it ∈ shop_items d (u_shop_name u) →
  requested (form rq) (i_id it) = Some q →
  fle q fzero = false →
  select_inventory (inventory d) (i_id it) = Some row →
  fgt q (i_quantity row) = true →
  ∃ msg, sell d rq now = flash_redirect d msg "sell".
Proof.
  intros Hu Hm Hin Hq Hpos Hrow Hgt. unfold sell. rewrite Hu, Hm.
  destruct (collect_sells_abort _ _ _ _ _ _ Hin Hq Hpos Hrow Hgt) as [msg ->].
  eauto.
Qed.




Lemma omap_ext_elem {A B} (f g : A → option B) (l : list A) :
  (∀ x, x ∈ l → f x = g x) → omap f l = omap g l.
Proof.
  intros H. apply list_omap_ext. apply Forall2_same_length_lookup_2; [done|].
  intros i x y Hx Hy. assert (x = y) as -> by congruence.
  apply H. by eapply list_elem_of_lookup_2.
Qed.

Lemma omap_omap {A B C} (f : A → option B) (g : B → option C) (l : list A) :
  omap g (omap f l) = omap (λ x, f x ≫= g) l.
Proof.
  induction l as [|x l IH]; [done|]. csimpl.
  destruct (f x) as [b|]; csimpl; [destruct (g b); csimpl|]; by rewrite IH.
Qed.

Lemma shop_items_elem (d : db) shop it :
  it ∈ shop_items d shop ↔ (i_shop_name it = shop ∧ it ∈ inventory d).
Proof.
  unfold shop_items, order_by.
  by rewrite merge_sort_Permutation, list_elem_of_filter.
Qed.

Lemma shop_items_NoDup (d : db) shop :
  NoDup (i_id <$> inventory d) → NoDup (i_id <$> shop_items d shop).
Proof.
  intros H. unfold shop_items, order_by.
  rewrite merge_sort_Permutation.
  eapply sublist_NoDup; [exact H|]. apply fmap_sublist, sublist_filter.
Qed.


Lemma step_inventory inv iid q qex :
  (∀ r, r ∈ inv → i_id r = iid → i_quantity r = qex) →
  (if fle (fsub qex q) fzero then delete_inventory inv iid
   else update_quantity inv iid (fsub qex q))
  = omap (λ r, if decide (i_id r = iid) then decrease r q else Some r) inv.
Proof.
  intros H. unfold delete_inventory, update_quantity, decrease.
  destruct (fle (fsub qex q) fzero) eqn:Hf.
  - induction inv as [|r inv IH]; [done|].
    rewrite filter_cons. csimpl.
    rewrite <- IH by (intros x Hx; apply H; by right).
    destruct (decide (i_id r = iid)) as [E|E].
    + rewrite (H r) by (done || left). rewrite Hf.
      destruct (decide (i_id r ≠ iid)); done.
    + destruct (decide (i_id r ≠ iid)); done.
  - induction inv as [|r inv IH]; [done|]. csimpl.
    rewrite <- IH by (intros x Hx; apply H; by right).
    destruct (decide (i_id r = iid)) as [E|E]; [|done].
    rewrite (H r) by (done || left). by rewrite Hf.
Qed.

Lemma select_inventory_Some inv iid ex :
  select_inventory inv iid = Some ex → ex ∈ inv ∧ i_id ex = iid.
Proof.
  unfold select_inventory. intros H.
  assert (ex ∈ filter (λ r, i_id r = iid) inv) as Hin.
  { destruct (filter _ inv); simplify_eq/=. left. }
  apply list_elem_of_filter in Hin. tauto.
Qed.

Lemma select_inventory_is_Some inv iid :
  iid ∈ i_id <$> inv → is_Some (select_inventory inv iid).
Proof.
  intros (r & -> & Hr)%list_elem_of_fmap. unfold select_inventory.
  assert (r ∈ filter (λ r0, i_id r0 = i_id r) inv) as Hin
    by by apply list_elem_of_filter.
  destruct (filter _ inv); [by apply not_elem_of_nil in Hin|by eexists].
Qed.

Lemma NoDup_same_id inv r1 r2 :
  NoDup (i_id <$> inv) → r1 ∈ inv → r2 ∈ inv → i_id r1 = i_id r2 → r1 = r2.
Proof.
  intros Hnd H1 H2 E.
  pose proof (select_inventory_elem _ _ Hnd H1) as S1.
  pose proof (select_inventory_elem _ _ Hnd H2) as S2.
  rewrite E in S1. congruence.
Qed.

Lemma decrease_id r q r' : decrease r q = Some r' → i_id r' = i_id r.
Proof. unfold decrease. case_match; [done|]. by intros [= <-]. Qed.

Lemma step_ids (inv : list inv_row) iid q :
  i_id <$> omap (λ r, if decide (i_id r = iid) then decrease r q else Some r) inv
  `sublist_of` i_id <$> inv.
Proof.
  induction inv as [|r inv IH]; simpl; [done|].
  destruct (decide (i_id r = iid)).
  - destruct (decrease r q) as [r'|] eqn:E; simpl.
    + apply decrease_id in E. rewrite E. by apply sublist_skip.
    + by apply sublist_cons.
  - simpl. by apply sublist_skip.
Qed.

Lemma step_other (inv : list inv_row) iid q j :
  j ≠ iid → j ∈ i_id <$> inv →
  j ∈ i_id <$> omap (λ r, if decide (i_id r = iid) then decrease r q else Some r) inv.
Proof.
  intros Hne (r & -> & Hr)%list_elem_of_fmap.
  apply list_elem_of_fmap. exists r. split; [done|].
  apply list_elem_of_omap. exists r. split; [done|]. by rewrite decide_False.
Qed.

Lemma sold_cons s sells r :
  s_inventory_id s ∉ s_inventory_id <$> sells →
  (if decide (i_id r = s_inventory_id s) then decrease r (s_qty s) else Some r)
    ≫= sold sells
  = sold (s :: sells) r.
Proof.
  intros Hs. unfold sold at 2. rewrite filter_cons.
  destruct (decide (i_id r = s_inventory_id s)) as [E|E].
  - rewrite decide_True by done. simpl.
    destruct (decrease r (s_qty s)) as [r'|] eqn:D; [|done]. simpl.
    unfold sold. apply decrease_id in D.
    destruct (filter _ sells) as [|s' l] eqn:Fl; [done|].
    exfalso. apply Hs.
    assert (s' ∈ filter (λ s0, s_inventory_id s0 = i_id r') sells) as Hin
      by (rewrite Fl; left).
    apply list_elem_of_filter in Hin as [Hid Hin].
    apply list_elem_of_fmap. exists s'. split; [congruence|done].
  - rewrite decide_False by done. done.
Qed.

Lemma omap_sold_nil (l : list inv_row) : omap (sold []) l = l.
Proof.
  induction l as [|r l IH]; [done|]. csimpl.
  change (sold [] r) with (Some r). by rewrite IH.
Qed.

(** The second loop on lines of distinct, present rows. *)
Lemma record_sells_ok shop now sells : ∀ k (d : db),
  NoDup (i_id <$> inventory d) →
  NoDup (s_inventory_id <$> sells) →
  (∀ s, s ∈ sells → s_inventory_id s ∈ i_id <$> inventory d) →
  ∃ d' recs,
    record_sells shop now k sells d = Some d'
    ∧ inventory d' = omap (sold sells) (inventory d)
    ∧ sales d' = sales d ++ recs
    ∧ Forall2 (recorded shop) sells recs
    ∧ users d' = users d ∧ purchases d' = purchases d
    ∧ purchase_orders d' = purchase_orders d.
Proof.
  induction sells as [|s sells IH]; intros k d Hnd Hns Hin.
  - exists d, []. simpl. split; [done|]. split.
    { by rewrite omap_sold_nil. }
    rewrite app_nil_r. repeat split; constructor.
  - apply NoDup_cons in Hns as [Hs Hns]. simpl.
    destruct (select_inventory_is_Some (inventory d) (s_inventory_id s))
      as [ex Hex]; [apply Hin; left|].
    rewrite Hex.
    apply select_inventory_Some in Hex as [Hexin Hexid].
    rewrite (step_inventory _ _ (s_qty s) (i_quantity ex)); cycle 1.
    { intros r Hr E. f_equal. apply (NoDup_same_id (inventory d)); try done.
      congruence. }
    match goal with |- context [record_sells _ _ _ _ ?x] => set (d1 := x) end.
    destruct (IH (S k) d1) as (d' & recs & Hrec & Hinv & Hsales & Hrecs & Hu & Hp & Hpo).
    { simpl. eapply sublist_NoDup; [exact Hnd|apply step_ids]. }
    { done. }
    { intros s' Hs'. simpl. apply step_other; [|apply Hin; by right].
      intros E. apply Hs. rewrite <- E. apply list_elem_of_fmap. eauto. }
    exists d'. eexists. split; [exact Hrec|].
    split.
    { rewrite Hinv. simpl. rewrite omap_omap. apply omap_ext_elem.
      intros r _. by apply sold_cons. }
    split.
    { rewrite Hsales. simpl. rewrite <- app_assoc. simpl. reflexivity. }
    split.
    { constructor; [|done]. by repeat split. }
    by rewrite Hu, Hp, Hpo.
Qed.








End SellFacts.

(** ** Search *)

Section SearchFacts.
Context {F : PyFloat}.









(** C6 (as amended): whenever [search] renders results, the sales matches
    and the purchases matches hold at most 500 rows each, however many rows
    match; the inventory matches are not capped: they are as many as the
    rows of the caller's shop the query matches. *)
Theorem search_caps (d : db) (rq : request) (q : string)
    (inv_rows : list inv_row) (sales_rows purchases_rows : list txn) :
  out_resp (search d rq) = SearchPage q inv_rows sales_rows purchases_rows →
  (length sales_rows ≤ 500)%nat
  ∧ (length purchases_rows ≤ 500)%nat
  ∧ ∃ u, current_user d (session rq) = Some u
         ∧ length inv_rows
           = length (filter (λ r, i_shop_name r = u_shop_name u
                                  ∧ (lower_like ("%" +:+ q +:+ "%") (i_oil_type r)
                                     ∨ lower_like ("%" +:+ q +:+ "%") (i_unit r)))
                            (inventory d)).
Proof.
  unfold search. destruct (current_user d (session rq)) as [u|]; [|done].
  destruct (Text.truth _); [|done]. simpl. intros [= <- <- <- <-].
  split; [|split].
  - unfold search_txn. rewrite length_take. lia.
  - unfold search_txn. rewrite length_take. lia.
  - exists u. split; [done|]. unfold search_inventory, order_by.
    by rewrite merge_sort_Permutation.
Qed.
End SearchFacts.

(** ** The primary key of [inventory]

    Every handler keeps the ids of the inventory rows distinct, so this
    hypothesis of the statements about sales holds in every state the
    application reaches from [init_db]. *)

Section KeyFacts.
Context {F : PyFloat}.

Lemma update_quantity_price_ids (inv : list inv_row) iid q p :
  i_id <$> update_quantity_price inv iid q p = i_id <$> inv.
Proof.
  unfold update_quantity_price. rewrite <- list_fmap_compose.
  apply list_fmap_ext. intros i r _. simpl. by destruct (decide _).
Qed.

Lemma update_quantity_ids (inv : list inv_row) iid q :
  i_id <$> update_quantity inv iid q = i_id <$> inv.
Proof.
  unfold update_quantity. rewrite <- list_fmap_compose.
  apply list_fmap_ext. intros i r _. simpl. by destruct (decide _).
Qed.

Lemma upsert_keeps_key (d d' : db) shop oil unit qty price :
  NoDup (i_id <$> inventory d) →
  upsert_inventory d shop oil unit qty price = Some d' →
  NoDup (i_id <$> inventory d').
Proof.
  intros Hnd. unfold upsert_inventory, insert_inventory.
  destruct (select_inventory_key _ _ _ _); intros [= <-]; simpl.
  - by rewrite update_quantity_price_ids.
  - rewrite fmap_app. apply NoDup_app. split; [done|]. split.
    + intros x Hx [->|[]%not_elem_of_nil]%elem_of_cons.
      by apply next_id_fresh in Hx.
    + apply NoDup_singleton.
Qed.

Lemma record_sells_keeps_key shop now sells : ∀ k (d d' : db),
  NoDup (i_id <$> inventory d) →
  record_sells shop now k sells d = Some d' →
  NoDup (i_id <$> inventory d').
Proof.
  induction sells as [|s sells IH]; intros k d d' Hnd; simpl.
  - by intros [= <-].
  - destruct (select_inventory _ _) as [ex|]; [|done].
    apply IH. simpl. destruct (fle _ _).
    + eapply sublist_NoDup; [exact Hnd|].
      apply fmap_sublist, sublist_filter.
    + by rewrite update_quantity_ids.
Qed.

(** X13: every handler keeps the primary key of the inventory: if the ids
    of the inventory rows are distinct before a request, they are after
    it. *)
Theorem inventory_key_invariant (d : db) (rq : request) (now : nat → string) :
  NoDup (i_id <$> inventory d) →
  NoDup (i_id <$> inventory (out_db (add_inventory d rq)))
  ∧ NoDup (i_id <$> inventory (out_db (purchase d rq now)))
  ∧ NoDup (i_id <$> inventory (out_db (sell d rq now)))
  ∧ NoDup (i_id <$> inventory (out_db (purchase_orders_view d rq now)))
  ∧ NoDup (i_id <$> inventory (out_db (search d rq)))
  ∧ ∀ hash, NoDup (i_id <$> inventory (out_db (register hash d rq))).
Proof.
  intros Hnd. repeat split.
  - unfold add_inventory. repeat case_match; simpl; try done.
    by eapply upsert_keeps_key.
  - unfold purchase. repeat case_match; simpl; try done.
    eapply upsert_keeps_key; [|done]. done.
  - unfold sell. repeat case_match; simpl; try done.
    by eapply record_sells_keeps_key.
  - unfold purchase_orders_view. by repeat case_match.
  - unfold search. by repeat case_match.
  - unfold register, insert_user. repeat case_match; by simplify_eq/=.
Qed.

Lemma init_db_key : NoDup (i_id <$> inventory init_db).
Proof. constructor. Qed.
End KeyFacts.

(** ** More on text *)

Module StripFacts.
Import Text.

Lemma rstrip_idemp s : rstrip (rstrip s) = rstrip s.
Proof.
  induction s as [|c s IH]; [done|]. simpl.
  destruct (rstrip s) as [|c' r] eqn:E.
  - destruct (isspace c) eqn:Hc; simpl; [done|]. by rewrite Hc.
  - simpl. simpl in IH. by rewrite IH.
Qed.

Lemma lstrip_head s :
  lstrip s = "" ∨ ∃ c t, lstrip s = String c t ∧ isspace c = false.
Proof.
  induction s as [|c s IH]; simpl; [by left|].
  destruct (isspace c) eqn:Hc; [done|]. right. eauto.
Qed.

Lemma rstrip_head c t :
  isspace c = false → ∃ t', rstrip (String c t) = String c t'.
Proof. intros Hc. simpl. destruct (rstrip t); rewrite ?Hc; eauto. Qed.

Lemma strip_idemp s : strip (strip s) = strip s.
Proof.
  unfold strip. destruct (lstrip_head s) as [->|(c & t & -> & Hc)]; [done|].
  destruct (rstrip_head c t Hc) as [t' E]. rewrite E.
  cbn [lstrip]. rewrite Hc, <- E. apply rstrip_idemp.
Qed.

Lemma or_else_truth s d : truth d = true → truth (or_else s d) = true.
Proof. unfold or_else. by destruct (truth s) eqn:E. Qed.
End StripFacts.

Import StripFacts.

(** ** Users and sessions *)

Section UserLemmas.
Context {F : PyFloat}.

Lemma select_user_elem us uname u :
  select_user us uname = Some u → u ∈ us ∧ u_username u = uname.
Proof.
  unfold select_user. intros H.
  assert (u ∈ filter (λ u0, u_username u0 = uname) us) as Hin.
  { destruct (filter _ us); simplify_eq/=. left. }
  apply list_elem_of_filter in Hin. tauto.
Qed.

Lemma select_user_unique us u :
  NoDup (u_username <$> us) → u ∈ us → select_user us (u_username u) = Some u.
Proof.
  unfold select_user. induction us as [|x us IH]; simpl.
  - intros _ H. by apply not_elem_of_nil in H.
  - intros [Hx Hnd]%NoDup_cons Hin. rewrite filter_cons.
    apply elem_of_cons in Hin as [->|Hin].
    + by rewrite decide_True.
    + rewrite decide_False; [by apply IH|].
      intros E. apply Hx. rewrite E. apply list_elem_of_fmap. eauto.
Qed.

Lemma current_user_of (d : db) u :
  NoDup (u_id <$> users d) → u ∈ users d → u_id u ≠ 0 →
  current_user d (Some (u_id u)) = Some u.
Proof.
  intros Hnd Hin Hid. unfold current_user. rewrite decide_False by done.
  revert Hnd Hin. induction (users d) as [|x us IH]; simpl.
  - intros _ H. by apply not_elem_of_nil in H.
  - intros [Hx Hnd]%NoDup_cons H. rewrite filter_cons.
    apply elem_of_cons in H as [->|H].
    + by rewrite decide_True.
    + rewrite decide_False; [by apply IH|].
      intros E. apply Hx. rewrite E. apply list_elem_of_fmap. eauto.
Qed.

Lemma current_user_elem (d : db) sess u :
  current_user d sess = Some u → u ∈ users d ∧ sess = Some (u_id u) ∧ u_id u ≠ 0.
Proof.
  unfold current_user. destruct sess as [uid|]; [|done].
  destruct (decide (uid = 0)) as [|Hne]; [done|]. intros H.
  assert (u ∈ filter (λ u0, u_id u0 = uid) (users d)) as Hin.
  { destruct (filter _ (users d)); simplify_eq/=. left. }
  apply list_elem_of_filter in Hin as [<- Hin]. done.
Qed.

Lemma filter_none {A} (P : A → Prop) `{!∀ x, Decision (P x)} (l : list A) :
  (∀ x, x ∈ l → ¬ P x) → filter P l = [].
Proof.
  induction l as [|x l IH]; intros Hl; [done|].
  rewrite filter_cons, decide_False by (apply Hl; left).
  apply IH. intros y Hy. apply Hl. by right.
Qed.

Lemma select_user_app_new us new :
  select_user us (u_username new) = None →
  select_user (us ++ [new]) (u_username new) = Some new.
Proof.
  unfold select_user. rewrite filter_app.
  destruct (filter _ us); [|done]. intros _. simpl.
  by rewrite filter_cons, decide_True.
Qed.

Lemma head_filter_id_new (us : list user) new :
  u_id new ∉ u_id <$> us →
  head (filter (λ u, u_id u = u_id new) (us ++ [new])) = Some new.
Proof.
  intros H. rewrite filter_app.
  assert (filter (λ u, u_id u = u_id new) us = []) as ->.
  { apply filter_none. intros u Hin Hid.
    apply H. rewrite <- Hid. apply list_elem_of_fmap. eauto. }
  simpl. by rewrite filter_cons, decide_True.
Qed.
End UserLemmas.

Section UserFacts.
Context {F : PyFloat}.
Variable generate_password_hash : string → string.

Lemma insert_user_ok (d d' : db) uname hash shop :
  users_ok (users d) →
  uname ≠ "" → Text.strip uname = uname → shop ≠ "" →
  insert_user d uname hash shop = Some d' →
  users_ok (users d') ∧ users d `prefix_of` users d'
  ∧ inventory d' = inventory d.
Proof.
  intros (Hn & Hi & Hall) Hu Hs Hsh. unfold insert_user.
  destruct (select_user _ _) eqn:E; [done|]. intros [= <-]. simpl.
  split; [|split; [by apply prefix_app_r|done]].
  unfold users_ok. rewrite !fmap_app. simpl. split; [|split].
  - apply NoDup_app. split; [done|]. split; [|apply NoDup_singleton].
    intros x Hx ->%list_elem_of_singleton. by apply select_user_None in E.
  - apply NoDup_app. split; [done|]. split; [|apply NoDup_singleton].
    intros x Hx ->%list_elem_of_singleton. by apply next_id_fresh in Hx.
  - apply Forall_app. split; [done|]. by apply Forall_singleton.
Qed.

Lemma register_users (d : db) (rq : request) :
  users_ok (users d) →
  users_ok (users (out_db (register generate_password_hash d rq)))
  ∧ users d `prefix_of` users (out_db (register generate_password_hash d rq))
  ∧ inventory (out_db (register generate_password_hash d rq)) = inventory d.
Proof.
  intros Hok. unfold register.
  destruct (method rq); [done|].
  destruct (Text.truth (Text.strip (default "" (form rq !! "username")))) eqn:Tu;
    [|done].
  destruct (Text.truth (default "" (form rq !! "password"))); [|done]. simpl.
  destruct (insert_user _ _ _ _) as [d'|] eqn:E; [|done]. simpl.
  apply insert_user_ok in E; [done|done| | |].
  - by apply truth_true.
  - apply strip_idemp.
  - by apply truth_true, or_else_truth.
Qed.

(** X9: [register] keeps the users table in shape: usernames and ids stay
    distinct, no id is 0, every username is non-empty and free of
    surrounding white space and every shop name is non-empty; and the rows
    that were there are kept. *)
Theorem register_keeps_users (d : db) (rq : request) :
  users_ok (users d) →
  users_ok (users (out_db (register generate_password_hash d rq)))
  ∧ users d `prefix_of` users (out_db (register generate_password_hash d rq)).
Proof. intros H. by destruct (register_users d rq H) as (? & ? & _). Qed.
End UserFacts.

Section SessionFacts.
Context {F : PyFloat}.
Variable generate_password_hash : string → string.
Variable check_password_hash : string → string → bool.

Lemma current_user_None (d : db) sess :
  (sess = None ∨ sess = Some 0 ∨ ∀ u, u ∈ users d → sess ≠ Some (u_id u)) →
  current_user d sess = None.
Proof.
  intros H. destruct (current_user d sess) as [u|] eqn:E; [|done].
  apply current_user_elem in E as (Hin & -> & Hid).
  destruct H as [H|[H|H]]; [done|by simplify_eq|]. by destruct (H u Hin).
Qed.

(** X1: a request whose session holds no user id, the id 0, or an id of
    no user is sent to the login page by every page behind the login, and
    the handlers that write (add_inventory, purchase, sell, purchase_orders)
    and the search leave the database as it is and flash nothing. *)
Theorem login_required (d : db) (rq : request) (now : nat → string) :
  (session rq = None ∨ session rq = Some 0
   ∨ ∀ u, u ∈ users d → session rq ≠ Some (u_id u)) →
  let back := {| out_db := d; out_flash := []; out_resp := Redirect "login" |} in
  add_inventory d rq = back
  ∧ purchase d rq now = back
  ∧ sell d rq now = back
  ∧ purchase_orders_view d rq now = back
  ∧ search d rq = back
  ∧ inventory_page d rq = ListRedirect "login"
  ∧ sales_history d rq = ListRedirect "login"
  ∧ purchase_history d rq = ListRedirect "login"
  ∧ purchase_orders_list d rq = ListRedirect "login"
  ∧ index d rq = Redirect "login".
Proof.
  intros H%current_user_None back.
  unfold add_inventory, purchase, sell, purchase_orders_view, search,
    inventory_page, sales_history, purchase_history, purchase_orders_list, index.
  by rewrite H.
Qed.

(** X2: when usernames are distinct, a POST to /login is answered by the
    redirect to the dashboard exactly when some user has the submitted
    username (stripped) and [check_password_hash] accepts the submitted
    password for the hash stored with it; the session then holds that
    user's id. Otherwise the session is left as it was, "Invalid
    credentials" is flashed and the answer is the redirect to the login
    page. *)
Theorem login_spec (d : db) (rq : request) :
  method rq = POST →
  NoDup (u_username <$> users d) →
  let uname := Text.strip (default "" (form rq !! "username")) in
  let pwd := default "" (form rq !! "password") in
  let out := login check_password_hash d rq in
  (auth_resp out = Redirect "dashboard"
   ↔ ∃ u, u ∈ users d ∧ u_username u = uname
          ∧ check_password_hash (u_password_hash u) pwd = true)
  ∧ (∀ u, u ∈ users d → u_username u = uname →
          check_password_hash (u_password_hash u) pwd = true →
          auth_session out = Some (u_id u) ∧ auth_flash out = [])
  ∧ (auth_resp out ≠ Redirect "dashboard" →
     auth_session out = session rq
     ∧ auth_flash out = ["Invalid credentials"]
     ∧ auth_resp out = Redirect "login").
Proof.
  intros Hm Hnd uname pwd out. subst out. unfold login. rewrite Hm.
  fold uname pwd.
  destruct (select_user (users d) uname) as [u|] eqn:E.
  - pose proof (select_user_elem _ _ _ E) as [Hin Hu].
    assert (∀ u', u' ∈ users d → u_username u' = uname → u' = u) as Huniq.
    { intros u' Hin' Hu'. rewrite <- Hu' in E.
      rewrite (select_user_unique _ _ Hnd Hin') in E. congruence. }
    destruct (check_password_hash (u_password_hash u) pwd) eqn:C; simpl.
    + split; [split; [eauto|done]|]. split; [|done].
      intros u' Hin' Hu' _. by rewrite (Huniq u' Hin' Hu').
    + split; [split; [done|]|].
      * intros (u' & Hin' & Hu' & C'). rewrite (Huniq u' Hin' Hu') in C'. congruence.
      * split; [|done]. intros u' Hin' Hu' C'.
        rewrite (Huniq u' Hin' Hu') in C'. congruence.
  - simpl. split; [split; [done|]|].
    + intros (u' & Hin' & Hu' & _). apply select_user_None in E. destruct E.
      apply list_elem_of_fmap. eauto.
    + split; [|done]. intros u' Hin' Hu' _. apply select_user_None in E.
      destruct E. apply list_elem_of_fmap. eauto.
Qed.

(** X3: after a successful registration, a login with the same username
    (up to surrounding white space) and the same password succeeds,
    provided [check_password_hash] accepts a password for the hash
    [generate_password_hash] made of it; [current_user] then finds, under
    the id the session holds, the user just created, with the stripped
    username and the shop name of the registration. *)
Theorem login_after_register (d : db) (rq rq' : request) :
  out_resp (register generate_password_hash d rq) = Redirect "login" →
  method rq' = POST →
  Text.strip (default "" (form rq' !! "username"))
  = Text.strip (default "" (form rq !! "username")) →
  default "" (form rq' !! "password") = default "" (form rq !! "password") →
  check_password_hash
    (generate_password_hash (default "" (form rq !! "password")))
    (default "" (form rq !! "password")) = true →
  let d' := out_db (register generate_password_hash d rq) in
  let out := login check_password_hash d' rq' in
  auth_resp out = Redirect "dashboard"
  ∧ ∃ u, auth_session out = Some (u_id u)
         ∧ current_user d' (auth_session out) = Some u
         ∧ u_username u = Text.strip (default "" (form rq !! "username"))
         ∧ u_shop_name u
           = Text.or_else (Text.strip (default "" (form rq !! "shop_name")))
                          "DefaultShop".
Proof.
  intros Hreg Hm Hu Hp Hc d' out. subst d' out. revert Hreg.
  unfold register. destruct (method rq); [done|].
  destruct (negb _ || negb _); [done|].
  unfold insert_user. destruct (select_user (users d) _) eqn:E; [done|].
  intros _. cbn [out_db].
  match goal with |- context [users d ++ [?n]] =>
    pose proof (select_user_app_new (users d) n E) as Hsel;
    pose proof (head_filter_id_new (users d) n (next_id_fresh _ _)) as Hid;
    set (new := n) in *
  end.
  unfold login. rewrite Hm, Hu, Hp. cbn [users].
  change (Text.strip (default "" (form rq !! "username")))
    with (u_username new).
  rewrite Hsel. cbn [u_password_hash new]. rewrite Hc.
  cbn [auth_resp auth_session].
  split; [done|]. exists new. split; [done|]. split; [|done].
  unfold current_user. destruct (decide (u_id new = 0)) as [|_]; [done|].
  exact Hid.
Qed.
End SessionFacts.

(** ** Whole sales *)

Section SaleFacts.
Context {F : PyFloat}.

Lemma accepted_Some fm iid q :
  accepted fm iid = Some q ↔ requested fm iid = Some q ∧ fle q fzero = false.
Proof.
  unfold accepted. destruct (requested fm iid) as [q'|];
    [|split; [done|by intros [? _]]].
  destruct (fle q' fzero) eqn:E; split.
  - done.
  - intros [[= ->] ?]. congruence.
  - by intros [= ->].
  - by intros [[= ->] _].
Qed.

Lemma accepted_try_float fm iid q :
  accepted fm iid = Some q → try_float (raw_qty fm iid) = q.
Proof.
  intros [H _]%accepted_Some. unfold requested in H.
  destruct (Text.truth _); by simplify_eq.
Qed.

(** The first loop, whatever the form. *)
Lemma collect_sells_cases inv fm items :
  NoDup (i_id <$> inv) →
  (∀ it, it ∈ items → it ∈ inv) →
  match collect_sells inv fm items with
  | inl msg =>
      ∃ it q, it ∈ items ∧ accepted fm (i_id it) = Some q
              ∧ fgt q (i_quantity it) = true ∧ msg = not_enough it
  | inr sells =>
      sells = line_of fm <$> filter (λ it, is_Some (accepted fm (i_id it))) items
      ∧ ∀ it q, it ∈ items → accepted fm (i_id it) = Some q →
                fgt q (i_quantity it) = false
  end.
Proof.
  intros Hnd. induction items as [|it items IH]; intros Hsub.
  - simpl. split; [done|]. intros it q Hit. by apply not_elem_of_nil in Hit.
  - assert (∀ x, x ∈ items → x ∈ inv) as Hsub' by (intros x Hx; apply Hsub; by right).
    specialize (IH Hsub'). rewrite filter_cons. simpl.
    unfold accepted, requested, raw_qty in *.
    destruct (Text.truth (Text.strip (default "" (fm !! qty_field (i_id it)))))
      eqn:Ht; simpl.
    + destruct (fle (try_float _) fzero) eqn:Hle.
      * destruct (collect_sells inv fm items) as [msg|sells].
        -- destruct IH as (x & q & Hx & ?). exists x, q. split; [by right|done].
        -- destruct IH as [-> IH]. rewrite decide_False by by intros [? ?].
           split; [done|]. intros x q [->|Hx]%elem_of_cons; [|by apply IH].
           by rewrite Ht, Hle.
      * rewrite select_inventory_elem by (done || apply Hsub; left).
        destruct (fgt (try_float _) (i_quantity it)) eqn:Hgt.
        -- eexists it, _. split; [left|]. rewrite Ht, Hle. done.
        -- destruct (collect_sells inv fm items) as [msg|sells].
           ++ destruct IH as (x & q & Hx & ?). exists x, q. split; [by right|done].
           ++ destruct IH as [-> IH]. simpl.
              split; [done|]. intros x q [->|Hx]%elem_of_cons; [|by apply IH].
              rewrite Ht, Hle. by intros [= <-].
    + destruct (collect_sells inv fm items) as [msg|sells].
      * destruct IH as (x & q & Hx & ?). exists x, q. split; [by right|done].
      * destruct IH as [-> IH].
        split; [done|]. intros x q [->|Hx]%elem_of_cons; [|by apply IH].
        by rewrite Ht.
Qed.

Lemma accepted_lines_elem (d : db) shop fm it :
  it ∈ accepted_lines d shop fm
  ↔ (i_shop_name it = shop ∧ is_Some (accepted fm (i_id it))) ∧ it ∈ inventory d.
Proof.
  unfold accepted_lines. rewrite list_elem_of_filter, shop_items_elem. tauto.
Qed.

Lemma accepted_lines_NoDup (d : db) shop fm :
  NoDup (i_id <$> inventory d) → NoDup (i_id <$> accepted_lines d shop fm).
Proof.
  intros H. eapply sublist_NoDup; [by apply (shop_items_NoDup d shop)|].
  apply fmap_sublist, sublist_filter.
Qed.

(** The rows the second loop rewrites, for lines picked by a predicate. *)
Lemma sold_picked (inv lines : list inv_row) (P : inv_row → Prop)
    `{!∀ x, Decision (P x)} fm r :
  NoDup (i_id <$> inv) →
  (∀ x, x ∈ lines ↔ P x ∧ x ∈ inv) →
  r ∈ inv →
  sold (line_of fm <$> lines) r
  = if decide (P r) then decrease r (try_float (raw_qty fm (i_id r))) else Some r.
Proof.
  intros Hnd Hl Hr. unfold sold.
  assert (∀ s, s ∈ filter (λ s, s_inventory_id s = i_id r) (line_of fm <$> lines) →
               s = line_of fm r ∧ P r) as Hall.
  { intros s [Hid (x & -> & Hx)%list_elem_of_fmap]%list_elem_of_filter.
    simpl in Hid. apply Hl in Hx as [HP Hx].
    assert (x = r) as -> by by apply (NoDup_same_id inv). done. }
  destruct (filter _ (line_of fm <$> lines)) as [|s l] eqn:E; simpl.
  - destruct (decide (P r)) as [HP|]; [|done].
    exfalso. apply (not_elem_of_nil (line_of fm r)). rewrite <- E.
    apply list_elem_of_filter. split; [reflexivity|].
    apply list_elem_of_fmap. exists r. split; [done|]. by apply Hl.
  - destruct (Hall s (list_elem_of_here _ _)) as [-> HP].
    by rewrite decide_True.
Qed.

Lemma sold_accepted (d : db) shop fm r :
  NoDup (i_id <$> inventory d) → r ∈ inventory d →
  sold (line_of fm <$> accepted_lines d shop fm) r = settle shop fm r.
Proof.
  intros Hnd Hr.
  rewrite (sold_picked (inventory d) _
             (λ x, i_shop_name x = shop ∧ is_Some (accepted fm (i_id x))));
    [|done|apply accepted_lines_elem|done].
  unfold settle. destruct (decide (i_shop_name r = shop)) as [Hs|Hs].
  - destruct (accepted fm (i_id r)) as [q|] eqn:Hq.
    + rewrite decide_True by eauto. by rewrite (accepted_try_float _ _ _ Hq).
    + rewrite decide_False; [done|]. by intros [_ [? ?]].
  - rewrite decide_False; [done|]. by intros [? _].
Qed.

Lemma decrease_positive r q r' :
  decrease r q = Some r' →
  fle (i_quantity r') fzero = false ∧ i_quantity r' = fsub (i_quantity r) q
  ∧ inv_key r' = inv_key r ∧ i_unit_price r' = i_unit_price r.
Proof.
  unfold decrease. destruct (fle _ _) eqn:E; [done|]. by intros [= <-].
Qed.

Lemma settle_id shop fm r r' : settle shop fm r = Some r' → i_id r' = i_id r.
Proof.
  unfold settle. repeat case_match; try (by intros [= <-]). apply decrease_id.
Qed.

Lemma recorded_sold_as shop fm lines recs :
  Forall (λ it, is_Some (accepted fm (i_id it))) lines →
  Forall2 (recorded shop) (line_of fm <$> lines) recs →
  Forall2 (sold_as shop fm) lines recs.
Proof.
  intros Hall H. rewrite Forall2_fmap_l in H. revert Hall.
  induction H as [|it t its ts Ht H IH]; intros Hall; [constructor|].
  apply Forall_cons in Hall as [[q Hq] Hall].
  constructor; [|by apply IH].
  destruct Ht as (? & ? & ? & Hqty & Hp & Ht). simpl in *.
  unfold sold_as. rewrite Hqty, Hp, Ht, Hq.
  by rewrite (accepted_try_float _ _ _ Hq).
Qed.

(** What [sell] does on a POST of a user, in terms of the two loops. *)
Lemma sell_post (d : db) (rq : request) (now : nat → string) (u : user) :
  NoDup (i_id <$> inventory d) →
  current_user d (session rq) = Some u →
  method rq = POST →
  let shop := u_shop_name u in
  let lines := accepted_lines d shop (form rq) in
  (∃ it q, it ∈ shop_items d shop ∧ accepted (form rq) (i_id it) = Some q
           ∧ fgt q (i_quantity it) = true
           ∧ sell d rq now = flash_redirect d (not_enough it) "sell")
  ∨ ((∀ it q, it ∈ shop_items d shop → accepted (form rq) (i_id it) = Some q →
              fgt q (i_quantity it) = false)
     ∧ ((lines = []
         ∧ sell d rq now = flash_redirect d "No items selected for sale" "sell")
        ∨ (lines ≠ []
           ∧ ∃ d' recs,
               sell d rq now
               = {| out_db := d'; out_flash := ["Sale recorded"];
                    out_resp := Redirect "dashboard" |}
               ∧ inventory d' = omap (settle shop (form rq)) (inventory d)
               ∧ sales d' = sales d ++ recs
               ∧ Forall2 (sold_as shop (form rq)) lines recs
               ∧ users d' = users d ∧ purchases d' = purchases d
               ∧ purchase_orders d' = purchase_orders d))).
Proof.
  intros Hnd Hu Hm shop lines. unfold sell. rewrite Hu, Hm. fold shop.
  pose proof (collect_sells_cases (inventory d) (form rq) (shop_items d shop) Hnd)
    as Hc.
  destruct (collect_sells _ _ _) as [msg|sells].
  - left. destruct Hc as (it & q & Hit & Hq & Hgt & ->).
    { intros it Hit. by apply shop_items_elem in Hit as [_ ?]. }
    eauto 10.
  - right. destruct Hc as [-> Hok].
    { intros it Hit. by apply shop_items_elem in Hit as [_ ?]. }
    split; [done|]. fold (accepted_lines d shop (form rq)). fold lines.
    destruct (record_sells_ok shop now (line_of (form rq) <$> lines) 0 d)
      as (d' & recs & Hrec & Hinv & Hsales & Hrecs & Hus & Hp & Hpo).
    { done. }
    { rewrite <- list_fmap_compose. by apply accepted_lines_NoDup. }
    { intros s (it & -> & Hit)%list_elem_of_fmap. simpl.
      apply list_elem_of_fmap. exists it. split; [done|].
      by apply accepted_lines_elem in Hit as [_ ?]. }
    destruct (line_of (form rq) <$> lines) as [|s0 ss] eqn:Es.
    + left. by apply fmap_nil_inv in Es.
    + right. split; [intros El; by rewrite El in Es|].
      exists d', recs. rewrite Hrec. split; [done|].
      rewrite <- Es in Hinv, Hrecs.
      split; [|split; [done|split; [|done]]].
      * rewrite Hinv. apply omap_ext_elem. intros r Hr.
        by apply sold_accepted.
      * apply recorded_sold_as; [|done]. apply Forall_forall. intros it Hit.
        by apply accepted_lines_elem in Hit as [[_ ?] _].
Qed.
End SaleFacts.

Section SaleTheorems.
Context {F : PyFloat}.


End SaleTheorems.

(** ** What the handlers keep *)

Section KeepFacts.
Context {F : PyFloat}.

Lemma record_sells_logs shop now sells : ∀ k (d d' : db),
  record_sells shop now k sells d = Some d' →
  (∃ recs, sales d' = sales d ++ recs
           ∧ Forall (λ t, t_shop_name t = shop) recs)
  ∧ users d' = users d ∧ purchases d' = purchases d
  ∧ purchase_orders d' = purchase_orders d.
Proof.
  induction sells as [|s sells IH]; intros k d d'; simpl.
  - intros [= <-]. split; [|done]. exists []. by rewrite app_nil_r.
  - destruct (select_inventory _ _) as [ex|]; [|done].
    intros ([recs [Hs Hr]] & Hu & Hp & Hpo)%IH. simpl in *.
    split; [|done]. eexists (_ :: recs). rewrite Hs, <- app_assoc.
    split; [done|]. by constructor.
Qed.

Lemma upsert_logs (d d' : db) shop oil unit qty price :
  upsert_inventory d shop oil unit qty price = Some d' →
  users d' = users d ∧ purchases d' = purchases d ∧ sales d' = sales d
  ∧ purchase_orders d' = purchase_orders d.
Proof.
  unfold upsert_inventory, insert_inventory.
  destruct (select_inventory_key _ _ _ _); by intros [= <-].
Qed.

(** X7: no handler ever changes or deletes a row of the users, purchases,
    sales or purchase_orders tables: after any request each of these
    tables starts with the rows it had. *)
Theorem tables_only_grow (d : db) (rq : request) (now : nat → string) :
  grown d (out_db (add_inventory d rq))
  ∧ grown d (out_db (purchase d rq now))
  ∧ grown d (out_db (sell d rq now))
  ∧ grown d (out_db (purchase_orders_view d rq now))
  ∧ grown d (out_db (search d rq))
  ∧ ∀ hash, grown d (out_db (register hash d rq)).
Proof.
  assert (grown d d) as Hrefl by (by repeat split).
  split; [|split; [|split; [|split; [|split]]]].
  - unfold add_inventory.
    destruct (current_user _ _); [|done]. destruct (method rq); [done|].
    cbv zeta. destruct (upsert_inventory _ _ _ _ _ _) eqn:E; [|done].
    apply upsert_logs in E as (Eu & Ep & Es & Epo).
    unfold grown. simpl. by rewrite Eu, Ep, Es, Epo.
  - unfold purchase.
    destruct (current_user _ _); [|done]. destruct (method rq); [done|].
    cbv zeta. destruct (upsert_inventory _ _ _ _ _ _) eqn:E; [|done].
    apply upsert_logs in E as (Eu & Ep & Es & Epo).
    unfold grown. simpl. rewrite Eu, Ep, Es, Epo. simpl.
    repeat split; try done. by apply prefix_app_r.
  - unfold sell.
    destruct (current_user _ _); [|done]. destruct (method rq); [done|].
    cbv zeta. destruct (collect_sells _ _ _) as [|[|s sells]]; [done|done|].
    destruct (record_sells _ _ _ _ _) eqn:E; [|done].
    apply record_sells_logs in E as ([recs [Es _]] & Eu & Ep & Epo).
    unfold grown. simpl. rewrite Eu, Ep, Es, Epo.
    repeat split; try done. by apply prefix_app_r.
  - unfold purchase_orders_view.
    destruct (current_user _ _); [|done]. destruct (method rq); [done|].
    unfold grown. simpl. repeat split; try done. by apply prefix_app_r.
  - unfold search. by repeat case_match.
  - intros hash. unfold register, insert_user.
    destruct (method rq); [done|]. destruct (negb _ || negb _); [done|].
    destruct (select_user _ _); [done|].
    unfold grown. simpl. repeat split; try done. by apply prefix_app_r.
Qed.

Lemma select_inventory_key_elem (inv : list inv_row) shop oil unit ex :
  select_inventory_key inv shop oil unit = Some ex →
  ex ∈ inv ∧ inv_key ex = (shop, oil, unit).
Proof.
  unfold select_inventory_key. intros H.
  assert (ex ∈ filter (λ r, i_shop_name r = shop ∧ i_oil_type r = oil
                            ∧ i_unit r = unit) inv) as Hin.
  { destruct (filter _ inv); simplify_eq/=. left. }
  apply list_elem_of_filter in Hin as [(<- & <- & <-) ?]. done.
Qed.

Lemma select_inventory_key_None (inv : list inv_row) shop oil unit :
  select_inventory_key inv shop oil unit = None →
  (shop, oil, unit) ∉ inv_key <$> inv.
Proof.
  unfold select_inventory_key. intros H (r & Hk & Hr)%list_elem_of_fmap.
  assert (r ∈ filter (λ r, i_shop_name r = shop ∧ i_oil_type r = oil
                           ∧ i_unit r = unit) inv) as Hin.
  { apply list_elem_of_filter. unfold inv_key in Hk. by simplify_eq. }
  destruct (filter _ inv); [by apply not_elem_of_nil in Hin|done].
Qed.

Lemma update_quantity_price_keys (inv : list inv_row) iid q p :
  inv_key <$> update_quantity_price inv iid q p = inv_key <$> inv.
Proof.
  unfold update_quantity_price. rewrite <- list_fmap_compose.
  apply list_fmap_ext. intros i r _. simpl. by destruct (decide _).
Qed.

Lemma update_quantity_keys (inv : list inv_row) iid q :
  inv_key <$> update_quantity inv iid q = inv_key <$> inv.
Proof.
  unfold update_quantity. rewrite <- list_fmap_compose.
  apply list_fmap_ext. intros i r _. simpl. by destruct (decide _).
Qed.

Lemma upsert_keeps_unique (d d' : db) shop oil unit qty price :
  NoDup (inv_key <$> inventory d) →
  upsert_inventory d shop oil unit qty price = Some d' →
  NoDup (inv_key <$> inventory d').
Proof.
  intros Hnd. unfold upsert_inventory, insert_inventory.
  destruct (select_inventory_key _ _ _ _) eqn:E; intros [= <-]; simpl.
  - by rewrite update_quantity_price_keys.
  - rewrite fmap_app. apply NoDup_app. split; [done|]. split.
    + intros x Hx ->%list_elem_of_singleton.
      by apply select_inventory_key_None in E.
    + apply NoDup_singleton.
Qed.

Lemma record_sells_keeps_unique shop now sells : ∀ k (d d' : db),
  NoDup (inv_key <$> inventory d) →
  record_sells shop now k sells d = Some d' →
  NoDup (inv_key <$> inventory d').
Proof.
  induction sells as [|s sells IH]; intros k d d' Hnd; simpl.
  - by intros [= <-].
  - destruct (select_inventory _ _) as [ex|]; [|done].
    apply IH. simpl. destruct (fle _ _).
    + eapply sublist_NoDup; [exact Hnd|].
      apply fmap_sublist, sublist_filter.
    + by rewrite update_quantity_keys.
Qed.

(** X8: every handler keeps the natural key of the inventory: if no two
    rows share (shop_name, oil_type, unit) before a request, none do after
    it. *)
Theorem inventory_unique_invariant (d : db) (rq : request) (now : nat → string) :
  NoDup (inv_key <$> inventory d) →
  NoDup (inv_key <$> inventory (out_db (add_inventory d rq)))
  ∧ NoDup (inv_key <$> inventory (out_db (purchase d rq now)))
  ∧ NoDup (inv_key <$> inventory (out_db (sell d rq now)))
  ∧ NoDup (inv_key <$> inventory (out_db (purchase_orders_view d rq now)))
  ∧ NoDup (inv_key <$> inventory (out_db (search d rq)))
  ∧ ∀ hash, NoDup (inv_key <$> inventory (out_db (register hash d rq))).
Proof.
  intros Hnd. repeat split.
  - unfold add_inventory. repeat case_match; simpl; try done.
    by eapply upsert_keeps_unique.
  - unfold purchase. repeat case_match; simpl; try done.
    eapply upsert_keeps_unique; [|done]. done.
  - unfold sell. repeat case_match; simpl; try done.
    by eapply record_sells_keeps_unique.
  - unfold purchase_orders_view. by repeat case_match.
  - unfold search. by repeat case_match.
  - unfold register, insert_user. repeat case_match; by simplify_eq/=.
Qed.
End KeepFacts.

(** ** Shops do not write to each other *)

Section ShopFacts.
Context {F : PyFloat}.

Lemma filter_fmap_keep {A} (P : A → Prop) `{!∀ x, Decision (P x)}
    (f : A → A) (l : list A) :
  (∀ x, x ∈ l → f x = x ∨ (¬ P x ∧ ¬ P (f x))) →
  filter P (f <$> l) = filter P l.
Proof.
  induction l as [|x l IH]; intros Hl; [done|].
  rewrite fmap_cons, !filter_cons, IH by (intros y Hy; apply Hl; by right).
  destruct (Hl x) as [->|[H1 H2]]; [left|done|].
  by rewrite !decide_False.
Qed.

Lemma filter_omap_keep {A} (P : A → Prop) `{!∀ x, Decision (P x)}
    (g : A → option A) (l : list A) :
  (∀ x, x ∈ l → g x = Some x ∨ (¬ P x ∧ ∀ y, g x = Some y → ¬ P y)) →
  filter P (omap g l) = filter P l.
Proof.
  induction l as [|x l IH]; intros Hl; [done|]. csimpl.
  assert (filter P (omap g l) = filter P l) as IH'
    by (apply IH; intros y Hy; apply Hl; by right).
  rewrite filter_cons. destruct (Hl x) as [->|[H1 H2]]; [left| |].
  - by rewrite filter_cons, IH'.
  - rewrite decide_False by done. destruct (g x) as [y|] eqn:E; [|done].
    rewrite filter_cons, decide_False by by apply H2. done.
Qed.

Lemma filter_app_none {A} (P : A → Prop) `{!∀ x, Decision (P x)} (l k : list A) :
  Forall (λ x, ¬ P x) k → filter P (l ++ k) = filter P l.
Proof.
  intros Hk. rewrite filter_app, (filter_none P k), app_nil_r; [done|].
  by apply Forall_forall.
Qed.

Lemma upsert_other_shops (d d' : db) shop oil unit qty price :
  NoDup (i_id <$> inventory d) →
  upsert_inventory d shop oil unit qty price = Some d' →
  filter (λ r, i_shop_name r ≠ shop) (inventory d')
  = filter (λ r, i_shop_name r ≠ shop) (inventory d).
Proof.
  intros Hnd. unfold upsert_inventory, insert_inventory.
  destruct (select_inventory_key _ _ _ _) as [ex|] eqn:E; intros [= <-]; simpl.
  - apply select_inventory_key_elem in E as [Hex Hk].
    unfold update_quantity_price. apply filter_fmap_keep.
    intros r Hr. destruct (decide (i_id r = i_id ex)) as [Hid|]; [|by left].
    right. assert (r = ex) as -> by by apply (NoDup_same_id (inventory d)).
    unfold inv_key in Hk. simplify_eq. simpl. split; by intros ?.
  - apply filter_app_none. apply Forall_singleton. simpl. by intros ?.
Qed.

Lemma settle_shop shop fm r :
  settle shop fm r = Some r
  ∨ (¬ i_shop_name r ≠ shop ∧ ∀ r', settle shop fm r = Some r' → ¬ i_shop_name r' ≠ shop).
Proof.
  unfold settle. destruct (decide (i_shop_name r = shop)) as [Hs|]; [|by left].
  destruct (accepted fm (i_id r)) as [q|]; [|by left].
  right. split; [by intros ?|]. intros r' Hd%decrease_positive Hne.
  destruct Hd as (_ & _ & Hk & _). unfold inv_key in Hk. by simplify_eq.
Qed.

Lemma sold_as_shop shop fm lines recs :
  Forall2 (sold_as shop fm) lines recs →
  Forall (λ t, ¬ t_shop_name t ≠ shop) recs.
Proof.
  induction 1 as [|it t its ts Ht _ IH]; constructor; [|done].
  destruct Ht as [Hs _]. by intros ?.
Qed.

(** X6: when the inventory ids are distinct, whatever a logged-in user
    submits to add_inventory, purchase, sell or purchase_orders, the rows
    of every other shop in the inventory, the sales, the purchases and the
    purchase orders are left exactly as they were, and so is the users
    table. *)
Theorem writes_stay_in_shop (d : db) (rq : request) (now : nat → string)
    (u : user) :
  NoDup (i_id <$> inventory d) →
  current_user d (session rq) = Some u →
  let shop := u_shop_name u in
  other_shops_same shop d (out_db (add_inventory d rq))
  ∧ other_shops_same shop d (out_db (purchase d rq now))
  ∧ other_shops_same shop d (out_db (sell d rq now))
  ∧ other_shops_same shop d (out_db (purchase_orders_view d rq now)).
Proof.
  intros Hnd Hu shop. subst shop.
  assert (other_shops_same (u_shop_name u) d d) as Hrefl by (by repeat split).
  split; [|split; [|split]].
  - unfold add_inventory. rewrite Hu. destruct (method rq); [done|].
    cbv zeta. destruct (upsert_inventory _ _ _ _ _ _) eqn:E; [|done].
    pose proof (upsert_other_shops _ _ _ _ _ _ _ Hnd E) as Hi.
    apply upsert_logs in E as (Eu & Ep & Es & Epo).
    unfold other_shops_same. simpl. by rewrite Hi, Eu, Ep, Es, Epo.
  - unfold purchase. rewrite Hu. destruct (method rq); [done|].
    cbv zeta. destruct (upsert_inventory _ _ _ _ _ _) eqn:E; [|done].
    pose proof (upsert_other_shops (insert_purchase _ _ _ _ _ _ _ _)
                  _ _ _ _ _ _ Hnd E) as Hi.
    apply upsert_logs in E as (Eu & Ep & Es & Epo).
    unfold other_shops_same. simpl. rewrite Hi, Eu, Ep, Es, Epo. simpl.
    repeat split; try done. apply filter_app_none, Forall_singleton.
    simpl. by intros ?.
  - destruct (method rq) eqn:Hm.
    { unfold sell. by rewrite Hu, Hm. }
    destruct (sell_post d rq now u Hnd Hu Hm)
      as [(it & q & _ & _ & _ & ->)
         |[_ [[_ ->]|(_ & d' & recs & -> & Hinv & Hsales & Hrecs & Eu & Ep & Epo)]]];
      [done|done|].
    unfold other_shops_same. simpl. rewrite Hinv, Hsales, Eu, Ep, Epo.
    repeat split; try done.
    + apply filter_omap_keep. intros r _. apply settle_shop.
    + apply filter_app_none. by eapply sold_as_shop.
  - unfold purchase_orders_view. rewrite Hu. destruct (method rq); [done|].
    unfold other_shops_same. simpl. repeat split; try done.
    apply filter_app_none, Forall_singleton. simpl. by intros ?.
Qed.
End ShopFacts.

(** ** The listing pages *)

Section PageFacts.
Context {F : PyFloat}.







End PageFacts.

(** ** Search on a blank query and on no match *)

Section SearchEdge.
Context {F : PyFloat}.

(** X14: for a logged-in user, a search whose query is absent, empty or
    white space only is answered by the message "Please enter a search
    keyword" and the redirect to the dashboard; a search whose pattern
    matches no inventory, sales or purchases row of the shop renders three
    empty lists and flashes "No record found for: " followed by the
    stripped query. *)
Theorem search_blank_or_empty (d : db) (rq : request) (u : user) :
  current_user d (session rq) = Some u →
  let field := default "" (args rq !! "q") in
  let q := Text.strip field in
  let pat := "%" +:+ q +:+ "%" in
  (Text.all_space field = true →
   search d rq = flash_redirect d "Please enter a search keyword" "dashboard")
  ∧ (Text.all_space field = false →
     (∀ r, r ∈ inventory d → i_shop_name r = u_shop_name u →
           lower_like pat (i_oil_type r) = false
           ∧ lower_like pat (i_unit r) = false) →
     (∀ t, t ∈ sales d ++ purchases d → t_shop_name t = u_shop_name u →
           lower_like pat (t_oil_type t) = false) →
     search d rq
     = {| out_db := d; out_flash := ["No record found for: " +:+ q];
          out_resp := SearchPage q [] [] [] |}).
Proof.
  intros Hu field q pat. unfold search. rewrite Hu. fold field q. split.
  - intros H%strip_empty. fold q in H. by rewrite H.
  - intros H Hi Ht.
    destruct (Text.truth q) eqn:T;
      [|apply truth_false, strip_empty in T; congruence].
    fold pat. unfold search_inventory, search_txn, order_by, order_by_desc.
    rewrite (filter_none _ (inventory d)), (filter_none _ (sales d)),
      (filter_none _ (purchases d)); [done| | |].
    + intros t Hin [Hs Hl]. rewrite (Ht t) in Hl; [done| |done].
      apply elem_of_app. by right.
    + intros t Hin [Hs Hl]. rewrite (Ht t) in Hl; [done| |done].
      apply elem_of_app. by left.
    + intros r Hin [Hs Hl]. destruct (Hi r Hin Hs) as [H1 H2].
      rewrite H1, H2 in Hl. by destruct Hl.
Qed.
End SearchEdge.

(** ** Buying an item and selling all of it *)

Section RoundTrip.
Context {F : PyFloat}.




End RoundTrip.

(** ** Every state the application reaches *)

Section ReachFacts.
Context {F : PyFloat}.
Variable generate_password_hash : string → string.

Lemma step_good (d d' : db) :
  good d → step generate_password_hash d d' → good d'.
Proof.
  intros (Hid & Hkey & Hus) Hstep. destruct Hstep as [rq|rq|rq now|rq now|rq now].
  - destruct (register_users generate_password_hash d rq Hus) as (Hu' & _ & Hi).
    unfold good. by rewrite Hi.
  - unfold add_inventory. destruct (current_user _ _); [|done].
    destruct (method rq); [done|]. cbv zeta.
    destruct (upsert_inventory _ _ _ _ _ _) as [d'|] eqn:E; [|done]. simpl.
    split; [by eapply upsert_keeps_key|]. split; [by eapply upsert_keeps_unique|].
    apply upsert_logs in E as (-> & _). done.
  - unfold purchase. destruct (current_user _ _); [|done].
    destruct (method rq); [done|]. cbv zeta.
    destruct (upsert_inventory _ _ _ _ _ _) as [d'|] eqn:E; [|done]. simpl.
    split; [eapply upsert_keeps_key; [|done]; done|].
    split; [eapply upsert_keeps_unique; [|done]; done|].
    apply upsert_logs in E as (-> & _). done.
  - unfold sell. destruct (current_user _ _); [|done].
    destruct (method rq); [done|]. cbv zeta.
    destruct (collect_sells _ _ _) as [|[|s sells]]; [done|done|].
    destruct (record_sells _ _ _ _ _) as [d'|] eqn:E; [|done]. simpl.
    split; [by eapply record_sells_keeps_key|].
    split; [by eapply record_sells_keeps_unique|].
    apply record_sells_logs in E as (_ & -> & _). done.
  - unfold purchase_orders_view. destruct (current_user _ _); [|done].
    by destruct (method rq).
Qed.

(** X16: in every database the handlers produce from the one [init_db]
    creates, the inventory ids are distinct, no two inventory rows share
    (shop_name, oil_type, unit), and the users table is in shape
    ([users_ok]). *)
Theorem reachable_good (d : db) :
  reachable generate_password_hash d → good d.
Proof.
  induction 1 as [|d d' _ IH Hstep].
  - repeat split; constructor.
  - by eapply step_good.
Qed.
End ReachFacts.

(** * Closed instances *)

Import Scenario.




(** The states of the scenarios. *)
Example db2_inventory : inventory db2 = [olive] ∧ current_user db2 (Some 1) = Some alice.
Proof. split; reflexivity. Qed.

Example db15_inventory : inventory db15 = [olive15].
Proof. reflexivity. Qed.

Example db3_inventory : inventory db3 = [olive; castor].
Proof. reflexivity. Qed.

Lemma register_duplicate_username_witness :
  register hash db1
    (post [("username", " alice "); ("password", "other"); ("shop_name", "Press")] None)
  = flash_redirect db1 "Username already exists" "register".
Proof.
  apply (register_duplicate_username (F := ZFloat.inst) hash db1
           (post [("username", " alice "); ("password", "other");
                  ("shop_name", "Press")] None)).
  - reflexivity.
  - change ("alice" ∈ ["alice"]). left.
Defined.

Lemma register_shop_name_witness :
  ∃ u, users (out_db (register hash db0
                        (post [("username", "bob"); ("password", "pw");
                               ("shop_name", "   ")] None)))
       = users db0 ++ [u]
       ∧ u_username u = "bob" ∧ u_shop_name u = "DefaultShop".
Proof.
  apply (register_shop_name hash db0
           (post [("username", "bob"); ("password", "pw"); ("shop_name", "   ")]
                 None)).
  reflexivity.
Defined.




Lemma sell_insufficient_stock_witness :
  ∃ msg, sell db15 (post [("qty_1", "20")] (Some 1)) clock
         = flash_redirect db15 msg "sell".
Proof.
  apply (sell_insufficient_stock db15 (post [("qty_1", "20")] (Some 1)) clock
           alice olive15 olive15 20%Z).
  - reflexivity.
  - reflexivity.
  - change (olive15 ∈ [olive15]). left.
  - reflexivity.
  - reflexivity.
  - reflexivity.
  - reflexivity.
Defined.

(** C1 as stated fails. After a stock entry of -5 for "Castor", the form
    asks -1 of it, more than its quantity, and 3 of "Olive"; the line of
    "Castor" is skipped and the sale of "Olive" goes through. *)
Lemma sell_negative_stock_counterexample :
  let rq := post [("qty_1", "3"); ("qty_2", "-1")] (Some 1) in
  current_user db3 (session rq) = Some alice
  ∧ shop_items db3 "Mill" = [castor; olive]
  ∧ requested (F := ZFloat.inst) (form rq) (i_id castor) = Some (-1)%Z
  ∧ select_inventory (inventory db3) (i_id castor) = Some castor
  ∧ fgt (PyFloat := ZFloat.inst) (-1)%Z (i_quantity castor) = true
  ∧ out_resp (sell db3 rq clock) = Redirect "dashboard"
  ∧ inventory (out_db (sell db3 rq clock))
    = [zrow 1 "Mill" "Olive" "Liters" 7%Z 5%Z; castor]
  ∧ sales db3 = []
  ∧ sales (out_db (sell db3 rq clock))
    = [ztxn 1 "Mill" "Olive" "Liters" 3%Z 5%Z 15%Z (clock 0)].
Proof. repeat split; reflexivity. Qed.





Lemma search_caps_witness :
  ∃ inv_rows sales_rows purchases_rows,
    out_resp (search db3 (get [("q", "o")] (Some 1)))
    = SearchPage "o" inv_rows sales_rows purchases_rows
    ∧ (length sales_rows ≤ 500)%nat ∧ (length purchases_rows ≤ 500)%nat.
Proof.
  do 3 eexists. split; [reflexivity|].
  destruct (search_caps db3 (get [("q", "o")] (Some 1)) "o" _ _ _ eq_refl)
    as (H1 & H2 & _).
  split; [exact H1|exact H2].
Defined.

Lemma filter_all {A} (P : A → Prop) `{!∀ x, Decision (P x)} (l : list A) :
  Forall P l → filter P l = l.
Proof.
  induction 1 as [|x l Hx _ IH]; [done|].
  by rewrite filter_cons, decide_True, IH.
Qed.

Lemma crowded_search (n : nat) :
  out_resp (search (crowded n) (get [("q", "olive")] (Some 1)))
  = SearchPage "olive" (search_inventory (crowded n) "Mill" "%olive%") [] []
  ∧ length (search_inventory (crowded n) "Mill" "%olive%") = n.
Proof.
  split; [reflexivity|].
  unfold search_inventory, order_by. rewrite merge_sort_Permutation.
  rewrite filter_all.
  - unfold crowded, many_rows. simpl. by rewrite length_fmap, length_seq.
  - unfold crowded, many_rows. simpl. apply Forall_fmap, Forall_forall.
    intros i _. simpl. split; [done|]. left. reflexivity.
Qed.

(** C6 as stated fails. The inventory query carries no LIMIT: whatever
    the cap, a shop with more matching rows gets them all. *)
Lemma search_inventory_uncapped_counterexample :
  ¬ ∃ cap : nat,
      ∀ (d : zdb) (rq : request) q inv_rows sales_rows purchases_rows,
        out_resp (search d rq) = SearchPage q inv_rows sales_rows purchases_rows →
        (length inv_rows ≤ cap)%nat.
Proof.
  intros [cap H].
  destruct (crowded_search (S cap)) as [E L].
  specialize (H _ _ _ _ _ _ E). lia.
Qed.

(** ** Closed instances of the further facts *)

Import Shops.

Lemma db4_reached : db4 = out_db (register hash db3 bob_registers).
Proof. reflexivity. Qed.

Lemma db5_reached : db5 = out_db (purchase db4 bob_buys clock).
Proof. reflexivity. Qed.

Lemma login_required_witness :
  sell db2 (post [("qty_1", "3")] None) clock
  = {| out_db := db2; out_flash := []; out_resp := Redirect "login" |}
  ∧ inventory_page db2 (get [] (Some 7)) = ListRedirect "login".
Proof.
  split.
  - apply (login_required db2 (post [("qty_1", "3")] None) clock). by left.
  - apply (login_required db2 (get [] (Some 7)) clock). right. right.
    intros u Hu. change (u ∈ [alice]) in Hu.
    apply list_elem_of_singleton in Hu. by rewrite Hu.
Defined.

Lemma login_spec_witness :
  auth_session (login check db5
                  (post [("username", " bob "); ("password", "pw2")] None))
  = Some 2.
Proof.
  destruct (login_spec check db5
              (post [("username", " bob "); ("password", "pw2")] None))
    as (_ & H & _).
  - reflexivity.
  - apply (bool_decide_unpack _). exact I.
  - apply (H bob); [|reflexivity|reflexivity].
    change (bob ∈ [alice; bob]). right. left.
Defined.

Lemma login_after_register_witness :
  auth_resp (login check db1 (post [("username", "alice "); ("password", "pw")] None))
  = Redirect "dashboard".
Proof.
  apply (login_after_register hash check db0
           (post [("username", "alice"); ("password", "pw"); ("shop_name", " Mill ")]
                 None)
           (post [("username", "alice "); ("password", "pw")] None));
    reflexivity.
Defined.

Lemma register_keeps_users_witness :
  users_ok (users db4) ∧ users db3 `prefix_of` users db4.
Proof.
  rewrite db4_reached. apply (register_keeps_users hash db3 bob_registers).
  change (users_ok [alice]). repeat split.
  - apply NoDup_singleton.
  - apply NoDup_singleton.
  - apply Forall_singleton. repeat split; discriminate.
Defined.



Lemma writes_stay_in_shop_witness :
  other_shops_same "Mill" db5
    (out_db (sell db5 (post [("qty_1", "3")] (Some 1)) clock))
  ∧ other_shops_same "Mill" db5
      (out_db (purchase db5
                 (post [("oil_type", "Olive"); ("quantity", "1"); ("price", "9")]
                       (Some 1)) clock)).
Proof.
  split.
  - apply (writes_stay_in_shop db5 (post [("qty_1", "3")] (Some 1)) clock alice).
    + apply (bool_decide_unpack _). exact I.
    + reflexivity.
  - apply (writes_stay_in_shop db5
             (post [("oil_type", "Olive"); ("quantity", "1"); ("price", "9")]
                   (Some 1)) clock alice).
    + apply (bool_decide_unpack _). exact I.
    + reflexivity.
Defined.

Lemma inventory_unique_invariant_witness :
  NoDup (inv_key <$> inventory (out_db (sell db5 (post [("qty_3", "8")] (Some 2)) clock))).
Proof.
  apply (inventory_unique_invariant db5 (post [("qty_3", "8")] (Some 2)) clock).
  apply (bool_decide_unpack _). exact I.
Defined.

Lemma inventory_key_invariant_witness :
  NoDup (i_id <$> inventory (out_db (sell db5 (post [("qty_3", "8")] (Some 2)) clock))).
Proof.
  apply (inventory_key_invariant db5 (post [("qty_3", "8")] (Some 2)) clock).
  apply (bool_decide_unpack _). exact I.
Defined.





Lemma search_blank_or_empty_witness :
  search db3 (get [("q", "   ")] (Some 1))
  = flash_redirect db3 "Please enter a search keyword" "dashboard".
Proof.
  apply (search_blank_or_empty db3 (get [("q", "   ")] (Some 1)) alice);
    reflexivity.
Defined.

Lemma reachable_good_witness : good db5.
Proof.
  apply (reachable_good hash db5).
  rewrite db5_reached. apply (reach_step _ db4), step_purchase.
  rewrite db4_reached. apply (reach_step _ db3), step_register.
  apply (reach_step _ db2), step_add_inventory.
  apply (reach_step _ db1), step_purchase.
  apply (reach_step _ db0), step_register.
  apply reach_init.
Defined.
